(** * Droid session extraction (extract_droid.py)

    A shallow embedding of [extract_droid_sessions] and of the statistics
    block of [main], with the properties of the extraction stated in the
    repository's specification.

    Conventions of the embedding.
    - A Python [str] is the list of its Unicode code points.
    - The values [json.loads] returns (None, bool, int, float, str, list,
      dict) are the constructors of [json]; a dict with [str] keys is a
      [gmap].
    - A Python exception is a constructor of [exn]; code that may raise
      returns a [res], and the two [try] blocks of the source are the two
      handlers [except_JSONDecodeError] and the match in [for_jsonl_files].
    - [json.loads] itself is library code: it is a variable of the section,
      so every theorem holds for whatever the decoder returns.
    - [print] output is not part of the model. *)

From Stdlib Require Import ZArith NArith String Ascii List Lia.
From Stdlib Require Import SpecFloat.
From stdpp Require Import base option list gmap.

Set Warnings "-register-all".
Set Default Proof Using "Type".
Open Scope string_scope.
Open Scope list_scope.

(** ** Python values *)

Definition str : Type := list N.

Definition py (s : string) : str := map N_of_ascii (list_ascii_of_string s).
Coercion py : string >-> str.

Inductive json : Type :=
| JNull
| JBool (b : bool)
| JInt (z : Z)
| JFloat (f : spec_float)
| JStr (s : str)
| JList (l : list json)
| JDict (d : gmap (list N) json).

Inductive exn : Type :=
| JSONDecodeError
| AttributeError
| TypeError
| OSError
| UnicodeDecodeError
| UnicodeEncodeError
| RecursionError.

Inductive res (A : Type) : Type :=
| Ret (a : A)
| Raise (e : exn).
Arguments Ret {A} a.
Arguments Raise {A} e.

#[global] Instance res_ret : MRet res := @Ret.
#[global] Instance res_bind : MBind res := fun A B k r =>
  match r with
  | Ret a => k a
  | Raise e => Raise e
  end.

(** [bool(v)]: the truth value of a Python object. *)
Definition truthy (v : json) : bool :=
  match v with
  | JNull => false
  | JBool b => b
  | JInt z => negb (z =? 0)%Z
  | JFloat (S754_zero _) => false
  | JFloat _ => true
  | JStr [] => false
  | JStr _ => true
  | JList [] => false
  | JList _ => true
  | JDict d => negb (bool_decide (size d = 0))
  end.

(** [v == s] for a string literal [s]. *)
Definition eq_str (v : json) (s : str) : bool :=
  match v with
  | JStr t => bool_decide (t = s)
  | _ => false
  end.

(** [d.get(k, dflt)] on a dict. *)
Definition dict_get (d : gmap (list N) json) (k : str) (dflt : json) : json :=
  default dflt (d !! k).

(** [v.get(k, dflt)] on any object: only a dict has the method. *)
Definition py_get (v : json) (k : str) (dflt : json) : res json :=
  match v with
  | JDict d => Ret (dict_get d k dflt)
  | _ => Raise AttributeError
  end.

(** [isinstance(v, list)] and [isinstance(v, dict)]. *)
Definition is_list (v : json) : bool :=
  match v with JList _ => true | _ => false end.

Definition is_dict (v : json) : bool :=
  match v with JDict _ => true | _ => false end.

(** ** Strings *)

(** [str.isspace] on one character (CPython's [_PyUnicode_IsWhitespace]). *)
Definition isspace (c : N) : bool :=
  ((9 <=? c) && (c <=? 13) || (28 <=? c) && (c <=? 32)
   || (c =? 133) || (c =? 160) || (c =? 5760)
   || (8192 <=? c) && (c <=? 8202)
   || (c =? 8232) || (c =? 8233) || (c =? 8239) || (c =? 8287)
   || (c =? 12288))%N.

Fixpoint lstrip (s : str) : str :=
  match s with
  | [] => []
  | c :: s' => if isspace c then lstrip s' else s
  end.

(** [s.strip()] *)
Definition strip (s : str) : str := rev (lstrip (rev (lstrip s))).

(** ['\n'] *)
Definition newline : str := [10%N].

(** [sep.join(parts)] on strings. *)
Fixpoint join_str (sep : str) (parts : list str) : str :=
  match parts with
  | [] => []
  | [p] => p
  | p :: rest => p ++ sep ++ join_str sep rest
  end.

(** The items of a list when all of them are [str]. *)
Fixpoint str_items (l : list json) : option (list str) :=
  match l with
  | [] => Some []
  | JStr s :: l' => cons s <$> str_items l'
  | _ :: _ => None
  end.

(** [sep.join(l)] on objects: a TypeError unless every item is a [str]. *)
Definition py_join (sep : str) (l : list json) : res str :=
  match str_items l with
  | Some parts => Ret (join_str sep parts)
  | None => Raise TypeError
  end.

(** ** The conversation model built by the extractor *)

(** The dict appended to [tool_uses] (lines 95-99). *)
Record tool_use : Type := {
  tu_id : json;
  tu_name : json;
  tu_input : json
}.

(** The dict appended to [tool_results] (lines 102-105). *)
Record tool_result : Type := {
  tr_tool_use_id : json;
  tr_content : json
}.

(** The [msg] dict. The keys [role], [content] and [timestamp] are always
    there; an optional key is an [option], [None] when the key is absent. *)
Record message : Type := {
  role : json;
  content : str;
  timestamp : json;
  thinking : option json;
  tool_uses : option (list tool_use);
  tool_results : option (list tool_result);
  todos : option json
}.

(** The dict appended to [conversations] (lines 130-137). *)
Record conversation : Type := {
  messages : list message;
  source : str;
  session_id : str;
  session_title : json;
  session_owner : json;
  source_file : str
}.

(** ** Content blocks (lines 77-105) *)

(** The four locals of the loop over [content_parts]. *)
Record blocks : Type := {
  text_content : list json;
  b_tool_uses : list tool_use;
  b_tool_results : list tool_result;
  b_thinking : json
}.

Definition no_blocks : blocks :=
  {| text_content := []; b_tool_uses := []; b_tool_results := [];
     b_thinking := JNull |}.

(** One iteration of [for content_item in content_parts]. *)
Definition content_block (acc : blocks) (content_item : json) : blocks :=
  match content_item with
  | JDict d =>
      let content_type := dict_get d "type" JNull in
      if eq_str content_type "text" then
        {| text_content := text_content acc ++ [dict_get d "text" (JStr "")];
           b_tool_uses := b_tool_uses acc;
           b_tool_results := b_tool_results acc;
           b_thinking := b_thinking acc |}
      else if eq_str content_type "thinking" then
        {| text_content := text_content acc;
           b_tool_uses := b_tool_uses acc;
           b_tool_results := b_tool_results acc;
           b_thinking := dict_get d "thinking" JNull |}
      else if eq_str content_type "tool_use" then
        {| text_content := text_content acc;
           b_tool_uses := b_tool_uses acc ++
             [{| tu_id := dict_get d "id" JNull;
                 tu_name := dict_get d "name" JNull;
                 tu_input := dict_get d "input" JNull |}];
           b_tool_results := b_tool_results acc;
           b_thinking := b_thinking acc |}
      else if eq_str content_type "tool_result" then
        {| text_content := text_content acc;
           b_tool_uses := b_tool_uses acc;
           b_tool_results := b_tool_results acc ++
             [{| tr_tool_use_id := dict_get d "tool_use_id" JNull;
                 tr_content := dict_get d "content" JNull |}];
           b_thinking := b_thinking acc |}
      else acc
  | _ => acc
  end.

Definition content_blocks (content_parts : list json) : blocks :=
  fold_left content_block content_parts no_blocks.

(** Lines 65-67: the content list of a message, a value that is not a list
    wrapped or dropped. *)
Definition content_list (content_parts : json) : list json :=
  match content_parts with
  | JList l => l
  | v => if truthy v then [v] else []
  end.

(** [x if x else None] for the optional keys of [msg] (lines 110-117). *)
Definition key_if_truthy (v : json) : option json :=
  if truthy v then Some v else None.

Definition key_if_nonempty {A : Type} (l : list A) : option (list A) :=
  match l with
  | [] => None
  | _ :: _ => Some l
  end.

(** [role not in ['user', 'assistant']] is the negation of this. *)
Definition role_in_user_assistant (role0 : json) : bool :=
  eq_str role0 "user" || eq_str role0 "assistant".

(** Lines 58-119 for one record of type [message]: [Ret None] is the
    [continue] of line 62, [Ret (Some msg)] the dict that line 119
    appends. *)
Definition message_of_record (obj : json) : res (option message) :=
  message0 ← py_get obj "message" (JDict ∅);
  role0 ← py_get message0 "role" JNull;
  if negb (role_in_user_assistant role0) then Ret None
  else
    content_parts ← py_get message0 "content" (JList []);
    timestamp0 ← py_get obj "timestamp" JNull;
    let b := content_blocks (content_list content_parts) in
    content0 ← py_join newline (text_content b);
    Ret (Some {| role := role0;
                 content := content0;
                 timestamp := timestamp0;
                 thinking := key_if_truthy (b_thinking b);
                 tool_uses := key_if_nonempty (b_tool_uses b);
                 tool_results := key_if_nonempty (b_tool_results b);
                 todos := None |}).

(** ** Scanning one session file (lines 39-137) *)

(** The locals [messages], [session_title] and [session_owner]. *)
Record scan_state : Type := {
  st_messages : list message;
  st_title : json;
  st_owner : json
}.

(** Lines 39-42. *)
Definition scan_start : scan_state :=
  {| st_messages := []; st_title := JNull; st_owner := JNull |}.

Definition set_todos (m : message) (v : json) : message :=
  {| role := role m; content := content m; timestamp := timestamp m;
     thinking := thinking m; tool_uses := tool_uses m;
     tool_results := tool_results m; todos := Some v |}.

(** The guard of line 123: [messages and 'todos' not in messages[-1]]. *)
Definition last_lacks_todos (msgs : list message) : bool :=
  match last msgs with
  | Some m => bool_decide (todos m = None)
  | None => false
  end.

(** Line 124: [messages[-1]['todos'] = v]. *)
Definition set_last_todos (msgs : list message) (v : json) : list message :=
  alter (fun m => set_todos m v) (pred (length msgs)) msgs.

(** Lines 51-124: the dispatch on the [type] of a decoded line. *)
Definition process_record (st : scan_state) (obj : json) : res scan_state :=
  msg_type ← py_get obj "type" JNull;
  if eq_str msg_type "session_start" then
    title ← py_get obj "title" (JStr "New Session");
    owner ← py_get obj "owner" JNull;
    Ret {| st_messages := st_messages st; st_title := title;
           st_owner := owner |}
  else if eq_str msg_type "message" then
    r ← message_of_record obj;
    match r with
    | None => Ret st
    | Some msg =>
        Ret {| st_messages := st_messages st ++ [msg];
               st_title := st_title st; st_owner := st_owner st |}
    end
  else if eq_str msg_type "todo_state" then
    if last_lacks_todos (st_messages st) then
      v ← py_get obj "todos" JNull;
      Ret {| st_messages := set_last_todos (st_messages st) v;
             st_title := st_title st; st_owner := st_owner st |}
    else Ret st
  else Ret st.

(** Lines 49-127: the inner [try], whose handler is [continue]. *)
Definition except_JSONDecodeError (st : scan_state) (body : res scan_state)
  : res scan_state :=
  match body with
  | Raise JSONDecodeError => Ret st
  | r => r
  end.

(** A session file as the extractor sees it: [jsonl_file.stem],
    [str(jsonl_file)], the lines that iterating over the open file yields,
    and the error that [open] or a later read raises, if one does. *)
Record session_file : Type := {
  stem : str;
  path : str;
  lines : list str;
  read_error : option exn
}.

(** What the extractor reads of the machine: whether [~/.factory/sessions]
    exists, and the files its [glob("*.jsonl")] lists, in that order. *)
Record environment : Type := {
  sessions_dir_exists : bool;
  jsonl_files : list session_file
}.

Definition find_droid_sessions (env : environment)
  : option (list session_file) :=
  if sessions_dir_exists env then Some (jsonl_files env) else None.

Section Extraction.

(** [json.loads]. *)
Variable json_loads : str → res json.

(** Lines 46-127: the body of [for line in f]. *)
Definition scan_line (st : scan_state) (line : str) : res scan_state :=
  match strip line with
  | [] => Ret st
  | _ :: _ =>
      except_JSONDecodeError st (obj ← json_loads line; process_record st obj)
  end.

Fixpoint scan_lines (st : scan_state) (ls : list str) : res scan_state :=
  match ls with
  | [] => Ret st
  | line :: ls' => st' ← scan_line st line; scan_lines st' ls'
  end.

(** Lines 44-127: the [with open(...)] block. *)
Definition read_session (f : session_file) : res scan_state :=
  st ← scan_lines scan_start (lines f);
  match read_error f with
  | Some e => Raise e
  | None => Ret st
  end.

(** Lines 130-137. *)
Definition make_conversation (f : session_file) (st : scan_state)
  : conversation :=
  {| messages := st_messages st;
     source := "droid";
     session_id := stem f;
     session_title := st_title st;
     session_owner := st_owner st;
     source_file := path f |}.

(** Lines 39-137: the body of the outer [try]; [Ret None] when [messages]
    is empty at the end of the file. *)
Definition scan_file (f : session_file) : res (option conversation) :=
  st ← read_session f;
  match st_messages st with
  | [] => Ret None
  | _ :: _ => Ret (Some (make_conversation f st))
  end.

(** Lines 37-141: [for jsonl_file in jsonl_files], the handler of the
    outer [try] being [continue]. *)
Fixpoint for_jsonl_files (conversations : list conversation)
  (jsonl_files : list session_file) : list conversation :=
  match jsonl_files with
  | [] => conversations
  | jsonl_file :: rest =>
      match scan_file jsonl_file with
      | Ret (Some c) => for_jsonl_files (conversations ++ [c]) rest
      | Ret None => for_jsonl_files conversations rest
      | Raise _ => for_jsonl_files conversations rest
      end
  end.

Definition extract_droid_sessions (env : environment) : list conversation :=
  match find_droid_sessions env with
  | None => []
  | Some files => for_jsonl_files [] files
  end.

End Extraction.

(** ** The statistics of [main] (lines 172-179) *)

Record statistics : Type := {
  total_messages : nat;
  user_messages : nat;
  assistant_messages : nat;
  with_tools : nat;
  with_thinking : nat
}.

(** [any(p(m) for m in ms)] *)
Definition any {A : Type} (p : A → bool) (ms : list A) : bool := existsb p ms.

(** [sum(...)] over a generator of numbers. *)
Definition sum (ns : list nat) : nat := foldr Nat.add 0 ns.

(** ['k' in m] for the optional keys of a message. *)
Definition has_key {A : Type} (field : option A) : bool :=
  match field with Some _ => true | None => false end.

Definition main_statistics (conversations : list conversation) : statistics :=
  {| total_messages :=
       sum (c ← conversations; [length (messages c)]);
     user_messages :=
       sum (c ← conversations; m ← messages c;
            if eq_str (role m) "user" then [1] else []);
     assistant_messages :=
       sum (c ← conversations; m ← messages c;
            if eq_str (role m) "assistant" then [1] else []);
     with_tools :=
       sum (c ← conversations;
            if any (fun m => has_key (tool_uses m) || has_key (tool_results m))
                   (messages c)
            then [1] else []);
     with_thinking :=
       sum (c ← conversations;
            if any (fun m => has_key (thinking m)) (messages c)
            then [1] else []) |}.

(** ** Blocks of a content list *)

(** The text values of the [text]-type blocks of a content list, and the
    [thinking] values of its [thinking]-type blocks, in block order; a
    block without the key counts with the default of its [get]. *)
Definition text_values (content_parts : list json) : list json :=
  omap (fun item =>
          match item with
          | JDict d =>
              if eq_str (dict_get d "type" JNull) "text"
              then Some (dict_get d "text" (JStr "")) else None
          | _ => None
          end) content_parts.

Definition thinking_values (content_parts : list json) : list json :=
  omap (fun item =>
          match item with
          | JDict d =>
              if eq_str (dict_get d "type" JNull) "thinking"
              then Some (dict_get d "thinking" JNull) else None
          | _ => None
          end) content_parts.

(** Strings joined by newlines, as the specification words the content
    of a Message: the strings in order, with the line feed, character 10,
    between each two of them. *)
Fixpoint newline_joined (texts : list str) : str :=
  match texts with
  | [] => []
  | [t] => t
  | t :: rest => t ++ 10%N :: newline_joined rest
  end.

(** ** Records of a file, as the specification speaks of them *)

Section Records.

Variable json_loads : str → res json.

(** The record a line carries: none for a blank line and for a line that
    does not decode. *)
Definition line_record (line : str) : option json :=
  match strip line with
  | [] => None
  | _ :: _ =>
      match json_loads line with
      | Ret obj => Some obj
      | Raise _ => None
      end
  end.

Definition records (ls : list str) : list json := omap line_record ls.

(** A [message]-type record whose role is [user] or [assistant]. *)
Definition qualifying (obj : json) : bool :=
  match obj with
  | JDict d =>
      eq_str (dict_get d "type" JNull) "message" &&
      match dict_get d "message" (JDict ∅) with
      | JDict m => role_in_user_assistant (dict_get m "role" JNull)
      | _ => false
      end
  | _ => false
  end.

Definition qualifying_count (ls : list str) : nat :=
  length (List.filter qualifying (records ls)).

Definition is_session_start (obj : json) : bool :=
  match obj with
  | JDict d => eq_str (dict_get d "type" JNull) "session_start"
  | _ => false
  end.

Definition session_starts (ls : list str) : list json :=
  List.filter is_session_start (records ls).

Definition title_of (obj : json) : json :=
  match obj with
  | JDict d => dict_get d "title" (JStr "New Session")
  | _ => JNull
  end.

Definition owner_of (obj : json) : json :=
  match obj with
  | JDict d => dict_get d "owner" JNull
  | _ => JNull
  end.

(** What a file adds to the output: its conversation, or nothing when it
    has no message or its scan raises. *)
Definition contribution (f : session_file) : option conversation :=
  match scan_file json_loads f with
  | Ret (Some c) => Some c
  | _ => None
  end.

(** The records that the dispatch accepts without raising: objects, and
    among those of type [message] the ones whose [message] is an object
    and, when the role is [user] or [assistant], whose text values are all
    strings. *)
Definition well_formed_record (obj : json) : bool :=
  match obj with
  | JDict d =>
      if eq_str (dict_get d "type" JNull) "session_start" then true
      else if eq_str (dict_get d "type" JNull) "message" then
        match dict_get d "message" (JDict ∅) with
        | JDict m =>
            if role_in_user_assistant (dict_get m "role" JNull) then
              bool_decide
                (is_Some
                   (str_items
                      (text_values
                         (content_list (dict_get m "content" (JList []))))))
            else true
        | _ => false
        end
      else true
  | _ => false
  end.

(** A line is well formed when it is blank, fails JSON decoding, or
    decodes to a well-formed record. *)
Definition well_formed_line (line : str) : bool :=
  match strip line with
  | [] => true
  | _ :: _ =>
      match json_loads line with
      | Ret obj => well_formed_record obj
      | Raise JSONDecodeError => true
      | Raise _ => false
      end
  end.

Definition well_formed_file (f : session_file) : bool :=
  bool_decide (read_error f = None) && forallb well_formed_line (lines f).

(** The file with other lines in place of its own. *)
Definition with_lines (f : session_file) (ls : list str) : session_file :=
  {| stem := stem f; path := path f; lines := ls;
     read_error := read_error f |}.

(** A line on which [json.loads] does not raise JSONDecodeError. *)
Definition decodable (line : str) : bool :=
  match json_loads line with
  | Raise JSONDecodeError => false
  | _ => true
  end.

(** The file without the lines that fail JSON decoding. *)
Definition without_undecodable (f : session_file) : session_file :=
  with_lines f (List.filter decodable (lines f)).

(** The conversations of the output that come from the file at [p]. *)
Definition conversations_of (p : str) (out : list conversation)
  : list conversation :=
  List.filter (fun c => bool_decide (source_file c = p)) out.

End Records.

(** ** The counters, as the specification words them *)

Definition count_if {A : Type} (p : A → bool) (l : list A) : nat :=
  length (List.filter p l).

Definition nonempty_field {A : Type} (field : option (list A)) : bool :=
  match field with
  | Some (_ :: _) => true
  | _ => false
  end.

Definition all_messages (conversations : list conversation) : list message :=
  concat (map messages conversations).

Definition spec_statistics (conversations : list conversation) : statistics :=
  {| total_messages := sum (map (fun c => length (messages c)) conversations);
     user_messages :=
       count_if (fun m => eq_str (role m) "user") (all_messages conversations);
     assistant_messages :=
       count_if (fun m => eq_str (role m) "assistant")
                (all_messages conversations);
     with_tools :=
       count_if (fun c => existsb (fun m => nonempty_field (tool_uses m)
                                         || nonempty_field (tool_results m))
                                  (messages c)) conversations;
     with_thinking :=
       count_if (fun c => existsb (fun m => has_key (thinking m)) (messages c))
                conversations |}.

(** ** Auxiliary notions of the proofs *)

(** The message that lines 65-117 build from the dict [m] under the key
    [message] of a record, once the text items are known to be strings. *)
Definition built_message (role0 timestamp0 : json) (b : blocks)
  (texts : list str) : message :=
  {| role := role0;
     content := join_str newline texts;
     timestamp := timestamp0;
     thinking := key_if_truthy (b_thinking b);
     tool_uses := key_if_nonempty (b_tool_uses b);
     tool_results := key_if_nonempty (b_tool_results b);
     todos := None |}.

(** The title and the owner that the scan holds after the session_start
    records [starts], having started from [t0] and [o0]: those of the
    last of them. *)
Definition title_after (t0 : json) (starts : list json) : json :=
  match last starts with
  | Some o => title_of o
  | None => t0
  end.

Definition owner_after (o0 : json) (starts : list json) : json :=
  match last starts with
  | Some o => owner_of o
  | None => o0
  end.

(** A message has the key [tool_uses], and the key [tool_results], only
    with a non-empty list under it. *)
Definition tool_keys_nonempty (m : message) : Prop :=
  nonempty_field (tool_uses m) = has_key (tool_uses m) ∧
  nonempty_field (tool_results m) = has_key (tool_results m).

(** ** Sample session files

    The lines below are written with ['] for the double quote of JSON;
    [jline] puts the double quotes back and ends the line with a newline,
    as iterating over a text file yields it. *)

Definition jtext (s : string) : str :=
  map (fun c => if (c =? 39)%N then 34%N else c) (py s).

Definition jline (s : string) : str := jtext s ++ newline.

Definition jmap (fields : list (string * json)) : gmap (list N) json :=
  list_to_map (map (fun kv => (py kv.1, kv.2)) fields).

Definition jobj (fields : list (string * json)) : json := JDict (jmap fields).

Module Sample.

Definition start_A : string :=
  "{'type':'session_start','title':'A','owner':'ann'}".
Definition start_B : string :=
  "{'type':'session_start','title':'B','owner':'bob'}".
Definition user_hi : string :=
  "{'type':'message','message':{'role':'user','content':[{'type':'text','text':'hi'}]}}".
Definition assistant_a_b : string :=
  "{'type':'message','message':{'role':'assistant','content':[{'type':'text','text':'a'},{'type':'text','text':'b'}]}}".
Definition system_note : string :=
  "{'type':'message','message':{'role':'system','content':[{'type':'text','text':'n'}]}}".
Definition message_null : string :=
  "{'type':'message','message':null}".
Definition todo_1 : string := "{'type':'todo_state','todos':'t1'}".
Definition todo_2 : string := "{'type':'todo_state','todos':'t2'}".
Definition truncated : string := "{'type':'message','mess".

Definition text_block (s : string) : json :=
  jobj [("type", JStr "text"); ("text", JStr s)].
Definition thinking_block (s : string) : json :=
  jobj [("type", JStr "thinking"); ("thinking", JStr s)].
Definition message_fields (role0 : string) (content0 : json)
  : list (string * json) :=
  [("role", JStr role0); ("content", content0)].
Definition record_fields (role0 : string) (content0 : json)
  : list (string * json) :=
  [("type", JStr "message"); ("message", jobj (message_fields role0 content0))].
Definition message_record (role0 : string) (content0 : json) : json :=
  jobj (record_fields role0 content0).

(** The value [json.loads] returns on each sample line. *)
Definition decoded : list (string * json) :=
  [ (start_A, jobj [("type", JStr "session_start"); ("title", JStr "A");
                   ("owner", JStr "ann")]);
    (start_B, jobj [("type", JStr "session_start"); ("title", JStr "B");
                   ("owner", JStr "bob")]);
    (user_hi, message_record "user" (JList [text_block "hi"]));
    (assistant_a_b,
     message_record "assistant" (JList [text_block "a"; text_block "b"]));
    (system_note, message_record "system" (JList [text_block "n"]));
    (message_null, jobj [("type", JStr "message"); ("message", JNull)]);
    (todo_1, jobj [("type", JStr "todo_state"); ("todos", JStr "t1")]);
    (todo_2, jobj [("type", JStr "todo_state"); ("todos", JStr "t2")]) ].

(** [json.loads] on the sample lines; any other line, such as [truncated],
    is taken to be undecodable. *)
Definition loads (line : str) : res json :=
  match list_find (fun kv => jtext kv.1 = strip line) decoded with
  | Some (_, kv) => Ret kv.2
  | None => Raise JSONDecodeError
  end.

Definition file (name : string) (ls : list string) : session_file :=
  {| stem := name;
     path := py "/home/u/.factory/sessions/" ++ py name ++ py ".jsonl";
     lines := map jline ls;
     read_error := None |}.

Definition unreadable (name : string) (ls : list string) : session_file :=
  {| stem := name;
     path := py "/home/u/.factory/sessions/" ++ py name ++ py ".jsonl";
     lines := map jline ls;
     read_error := Some OSError |}.

Definition sessions (fs : list session_file) : environment :=
  {| sessions_dir_exists := true; jsonl_files := fs |}.

(** The message of [user_hi], and the scan state once it is appended. *)
Definition hi_message : message :=
  {| role := JStr "user"; content := "hi"; timestamp := JNull;
     thinking := None; tool_uses := None; tool_results := None;
     todos := None |}.

Definition after_user_hi : scan_state :=
  {| st_messages := [hi_message]; st_title := JNull; st_owner := JNull |}.

End Sample.

(** ** Tool blocks, ignored records and the messages of a file *)

(** The entries that the [tool_use]-type blocks of a content list give,
    and those of its [tool_result]-type blocks, in block order. *)
Definition tool_use_values (content_parts : list json) : list tool_use :=
  omap (fun item =>
          match item with
          | JDict d =>
              if eq_str (dict_get d "type" JNull) "tool_use"
              then Some {| tu_id := dict_get d "id" JNull;
                           tu_name := dict_get d "name" JNull;
                           tu_input := dict_get d "input" JNull |}
              else None
          | _ => None
          end) content_parts.

Definition tool_result_values (content_parts : list json) : list tool_result :=
  omap (fun item =>
          match item with
          | JDict d =>
              if eq_str (dict_get d "type" JNull) "tool_result"
              then Some {| tr_tool_use_id := dict_get d "tool_use_id" JNull;
                           tr_content := dict_get d "content" JNull |}
              else None
          | _ => None
          end) content_parts.

(** The items of a content list that the dispatch of lines 86-105 reads:
    dicts whose [type] is one of the four block types. *)
Definition known_block (item : json) : bool :=
  match item with
  | JDict d =>
      eq_str (dict_get d "type" JNull) "text"
      || eq_str (dict_get d "type" JNull) "thinking"
      || eq_str (dict_get d "type" JNull) "tool_use"
      || eq_str (dict_get d "type" JNull) "tool_result"
  | _ => false
  end.

(** A message without its [todos] key. *)
Definition clear_todos (m : message) : message :=
  {| role := role m; content := content m; timestamp := timestamp m;
     thinking := thinking m; tool_uses := tool_uses m;
     tool_results := tool_results m; todos := None |}.

(** The message that a record of type [message] gives, if it gives one. *)
Definition record_message (obj : json) : option message :=
  match obj with
  | JDict d =>
      if eq_str (dict_get d "type" JNull) "message" then
        match message_of_record obj with
        | Ret (Some msg) => Some msg
        | _ => None
        end
      else None
  | _ => None
  end.

(** The records that the dispatch of lines 51-124 passes over whatever the
    state: objects of a type other than the three it knows, and objects of
    type [message] whose [message] is an object with a role other than
    [user] and [assistant]. *)
Definition ignored_record (obj : json) : bool :=
  match obj with
  | JDict d =>
      if eq_str (dict_get d "type" JNull) "session_start" then false
      else if eq_str (dict_get d "type" JNull) "message" then
        match dict_get d "message" (JDict ∅) with
        | JDict m => negb (role_in_user_assistant (dict_get m "role" JNull))
        | _ => false
        end
      else if eq_str (dict_get d "type" JNull) "todo_state" then false
      else true
  | _ => false
  end.

(** The role of a message of the output. *)
Definition role_user_or_assistant (m : message) : Prop :=
  role m = JStr "user" ∨ role m = JStr "assistant".

Section FileMessages.

Variable json_loads : str → res json.

Definition file_messages (ls : list str) : list message :=
  omap record_message (records json_loads ls).

(** A line that is blank or carries an ignored record. *)
Definition ignorable_line (line : str) : bool :=
  match strip line with
  | [] => true
  | _ :: _ =>
      match json_loads line with
      | Ret obj => ignored_record obj
      | Raise _ => false
      end
  end.

(** A non-blank line on which the scan raises whatever the state:
    [json.loads] raises an error other than JSONDecodeError, or returns a
    value that is not an object. *)
Definition fatal_line (line : str) : bool :=
  match strip line with
  | [] => false
  | _ :: _ =>
      match json_loads line with
      | Ret obj => negb (is_dict obj)
      | Raise JSONDecodeError => false
      | Raise _ => true
      end
  end.

End FileMessages.

(** ** The end of [main] (lines 152-202)

    [main] prints, computes the counters and writes the output file. Of
    these the model keeps the branch that [main] takes, the counters it
    prints, the name of the file, the text that it writes, and the error
    that ends it when serialising or the file system fails.
    [json.dumps(conv, ensure_ascii=False)], the result of [strftime] and
    the behaviour of the file system are taken as given. *)

(** What the file system does with the output: the error that [mkdir],
    [open], a [write] (after the text written so far, of the next string),
    the closing of the file (holding a text) and [stat] raise, if any. *)
Record output_io : Type := {
  mkdir_error : option exn;
  open_error : option exn;
  write_error : str → str → option exn;
  close_error : str → option exn;
  stat_error : option exn
}.

(** The state of [main] from line 168 on: the number of sessions and the
    counters it has printed, the directory and the name of the output
    file, and the text written to the file so far. *)
Record saved : Type := {
  found : nat;
  printed : statistics;
  output_dir : str;
  output_name : str;
  output_text : str
}.

(** How [main] ends: at one of its two early returns, at its end, or with
    an error [e] raised after line 179, [created] telling whether the
    output file was opened. *)
Inductive main_outcome : Type :=
| NoSessionsDirectory
| NoSessionsFound
| Saved (r : saved)
| Raised (e : exn) (r : saved) (created : bool).

Section Main.

Variable json_loads : str → res json.
Variable json_dumps : conversation → res str.
Variable io : output_io.

(** Lines 196-197: the loop over [conversations], from the text written
    so far to the text written at the end of the loop and the error that
    ends it, if one does. *)
Fixpoint write_conversations (conversations : list conversation)
  (text : str) : str * option exn :=
  match conversations with
  | [] => (text, None)
  | conv :: rest =>
      match json_dumps conv with
      | Raise e => (text, Some e)
      | Ret s =>
          match write_error io text (s ++ newline) with
          | Some e => (text, Some e)
          | None => write_conversations rest (text ++ (s ++ newline))
          end
      end
  end.

Definition main (env : environment) (timestamp0 : str) : main_outcome :=
  match find_droid_sessions env with
  | None => NoSessionsDirectory
  | Some _ =>
      let conversations := extract_droid_sessions json_loads env in
      match conversations with
      | [] => NoSessionsFound
      | _ :: _ =>
          let state text :=
            {| found := length conversations;
               printed := main_statistics conversations;
               output_dir := "extracted_data";
               output_name :=
                 py "droid_conversations_" ++ timestamp0 ++ py ".jsonl";
               output_text := text |} in
          match mkdir_error io with
          | Some e => Raised e (state []) false
          | None =>
          match open_error io with
          | Some e => Raised e (state []) false
          | None =>
          match write_conversations conversations [] with
          | (text, Some e) => Raised e (state text) true
          | (text, None) =>
          match close_error io text with
          | Some e => Raised e (state text) true
          | None =>
          match stat_error io with
          | Some e => Raised e (state text) true
          | None => Saved (state text)
          end end end end end
      end
  end.

End Main.

(** The lines of a text, without their newlines, as reading it back line
    by line gives them; [cur] is the line being read. *)
Fixpoint split_lines (text cur : str) : list str :=
  match text with
  | [] => match cur with [] => [] | _ :: _ => [cur] end
  | c :: text' =>
      if (c =? 10)%N then cur :: split_lines text' []
      else split_lines text' (cur ++ [c])
  end.

(** ** More sample data *)

Module Sample2.

Definition tool_use_block (id0 name0 : string) : json :=
  jobj [("type", JStr "tool_use"); ("id", JStr id0); ("name", JStr name0);
        ("input", jobj [])].

Definition tool_result_block (id0 : string) : json :=
  jobj [("type", JStr "tool_result"); ("tool_use_id", JStr id0);
        ("content", JStr "ok")].

(** A content list with text and tool blocks. *)
Definition tool_parts : list json :=
  [Sample.text_block "a"; tool_use_block "t1" "Read";
   tool_result_block "t1"; tool_use_block "t2" "Edit"].

(** A content list with a stray string and a block of an unknown type. *)
Definition mixed_parts : list json :=
  [JStr "stray"; Sample.text_block "a"; jobj [("type", JStr "image")]].

Definition todo_fields (s : string) : list (string * json) :=
  [("type", JStr "todo_state"); ("todos", JStr s)].

(** [json.loads] on the sample lines and on the line [42]. *)
Definition loads (line : str) : res json :=
  if decide (strip line = py "42") then Ret (JInt 42) else Sample.loads line.

(** A decoder that differs from [Sample.loads] on whitespace lines only. *)
Definition loads_strict (line : str) : res json :=
  if forallb isspace line then Raise RecursionError else Sample.loads line.

(** A line of 3000 opening brackets, and [json.loads] on it and on the
    sample lines: the decoder gives up on the nesting with a
    RecursionError, which is not a JSONDecodeError. *)
Definition deep_line : str := replicate 3000 91%N ++ newline.

Definition loads_deep (line : str) : res json :=
  if decide (strip line = replicate 3000 91%N) then Raise RecursionError
  else Sample.loads line.

(** A stand-in for [json.dumps]: the session id between braces. *)
Definition dumps (c : conversation) : res str :=
  Ret (py "{" ++ session_id c ++ py "}").

(** An output directory and file on which nothing fails. *)
Definition io_ok : output_io :=
  {| mkdir_error := None; open_error := None;
     write_error := fun _ _ => None; close_error := fun _ => None;
     stat_error := None |}.

(** One on which the write of the line of session [s3] raises, as the
    write of a string with a lone surrogate does. *)
Definition io_bad_s3 : output_io :=
  {| mkdir_error := None; open_error := None;
     write_error := fun _ s =>
       if decide (s = py "{s3}" ++ newline) then Some UnicodeEncodeError
       else None;
     close_error := fun _ => None;
     stat_error := None |}.

Definition two_sessions : environment :=
  Sample.sessions
    [Sample.file "s1" [Sample.start_A; Sample.user_hi; Sample.todo_1;
                       Sample.system_note; Sample.assistant_a_b];
     Sample.file "s2" [Sample.start_B; Sample.system_note];
     Sample.file "s3" [Sample.user_hi]].

End Sample2.

(** ** Basic facts on the error monad and the loops *)

Lemma bind_Ret {A B : Type} (r : res A) (k : A → res B) (b : B) :
  r ≫= k = Ret b → ∃ a, r = Ret a ∧ k a = Ret b.
Proof. destruct r as [a|e]; simpl; [eauto | discriminate]. Qed.

Lemma py_get_Ret (v : json) (k : str) (dflt r : json) :
  py_get v k dflt = Ret r → ∃ d, v = JDict d ∧ r = dict_get d k dflt.
Proof. destruct v; simpl; try discriminate. intros [= <-]. eauto. Qed.

Lemma py_join_not_decode_error (sep : str) (l : list json) :
  py_join sep l ≠ Raise JSONDecodeError.
Proof. unfold py_join. destruct (str_items l); discriminate. Qed.

Lemma message_of_record_not_decode_error (obj : json) :
  message_of_record obj ≠ Raise JSONDecodeError.
Proof.
  unfold message_of_record.
  destruct obj; simpl; try discriminate.
  destruct (dict_get d "message" (JDict ∅)); simpl; try discriminate.
  destruct (negb _); simpl; try discriminate.
  destruct (py_join _ _) eqn:E; simpl; try discriminate.
  intros [= ->]. by eapply py_join_not_decode_error.
Qed.

Lemma process_record_not_decode_error (st : scan_state) (obj : json) :
  process_record st obj ≠ Raise JSONDecodeError.
Proof.
  unfold process_record.
  destruct obj; simpl; try discriminate.
  repeat (case_match; simpl; try discriminate).
  destruct (message_of_record (JDict d)) as [[m|]|e] eqn:E; simpl;
    try discriminate.
  intros [= ->]. by eapply message_of_record_not_decode_error.
Qed.

Section Scanning.

Variable json_loads : str → res json.

(** A line leaves the state alone, or carries a record that
    [process_record] accepts. *)
Lemma scan_line_Ret (st st' : scan_state) (line : str) :
  scan_line json_loads st line = Ret st' →
  (line_record json_loads line = None ∧ st' = st) ∨
  (∃ obj, line_record json_loads line = Some obj ∧
          process_record st obj = Ret st').
Proof.
  unfold scan_line, line_record.
  destruct (strip line) as [|c s].
  - intros [= <-]. by left.
  - destruct (json_loads line) as [obj|e]; simpl.
    + destruct (process_record st obj) as [st1|e] eqn:E; simpl.
      * intros [= <-]. right. eauto.
      * destruct e; try discriminate.
        by apply process_record_not_decode_error in E.
    + destruct e; try discriminate. intros [= <-]. by left.
Qed.

Lemma scan_lines_app (st : scan_state) (l1 l2 : list str) :
  scan_lines json_loads st (l1 ++ l2)
  = scan_lines json_loads st l1 ≫= (fun st' => scan_lines json_loads st' l2).
Proof.
  revert st. induction l1 as [|line l1 IH]; intros st; simpl; [done|].
  destruct (scan_line json_loads st line) as [st1|e]; simpl; [apply IH | done].
Qed.

(** A line whose decoding raises JSONDecodeError leaves the state alone. *)
Lemma scan_line_undecodable (st : scan_state) (line : str) :
  json_loads line = Raise JSONDecodeError →
  scan_line json_loads st line = Ret st.
Proof.
  intros E. unfold scan_line.
  destruct (strip line); [done|]. by rewrite E.
Qed.

Lemma scan_line_blank (st : scan_state) (line : str) :
  strip line = [] → scan_line json_loads st line = Ret st.
Proof. intros E. unfold scan_line. by rewrite E. Qed.

(** The loop over the files adds the contribution of each file, in
    order, and nothing else. *)
Lemma for_jsonl_files_contributions (acc : list conversation)
  (fs : list session_file) :
  for_jsonl_files json_loads acc fs = acc ++ omap (contribution json_loads) fs.
Proof.
  revert acc. induction fs as [|f fs IH]; intros acc; simpl.
  - by rewrite app_nil_r.
  - unfold contribution at 1.
    destruct (scan_file json_loads f) as [[c|]|e]; rewrite IH; simpl.
    + by rewrite <- app_assoc.
    + done.
    + done.
Qed.

Lemma extract_contributions (fs : list session_file) :
  extract_droid_sessions json_loads
    {| sessions_dir_exists := true; jsonl_files := fs |}
  = omap (contribution json_loads) fs.
Proof. apply for_jsonl_files_contributions. Qed.

End Scanning.

Example sample_scan :
  map (fun c => (length (messages c), session_title c))
      (extract_droid_sessions Sample.loads
         (Sample.sessions
            [Sample.file "s1" [Sample.start_A; Sample.user_hi;
                               Sample.truncated; Sample.assistant_a_b];
             Sample.file "s2" [Sample.start_B; Sample.system_note]]))
  = [(2, JStr "A")].
Proof. vm_compute. reflexivity. Qed.

(** ** Containment of failures *)

Section Containment.

Variable json_loads : str → res json.

Lemma scan_lines_skip (st : scan_state) (before after : list str) (line : str) :
  (∀ st', scan_line json_loads st' line = Ret st') →
  scan_lines json_loads st (before ++ line :: after)
  = scan_lines json_loads st (before ++ after).
Proof.
  intros Hskip. rewrite !scan_lines_app.
  destruct (scan_lines json_loads st before) as [st1|e]; simpl; [|done].
  by rewrite Hskip.
Qed.

Lemma scan_lines_without_undecodable (st : scan_state) (ls : list str) :
  scan_lines json_loads st (List.filter (decodable json_loads) ls)
  = scan_lines json_loads st ls.
Proof.
  revert st. induction ls as [|line ls IH]; intros st; simpl; [done|].
  unfold decodable at 1.
  destruct (json_loads line) as [obj|e] eqn:E; simpl.
  - destruct (scan_line json_loads st line); simpl; [apply IH | done].
  - destruct e; simpl;
      try (destruct (scan_line json_loads st line); simpl; [apply IH | done]).
    rewrite (scan_line_undecodable json_loads st line E). simpl. apply IH.
Qed.

Lemma scan_file_with_lines (f : session_file) (ls : list str) :
  scan_lines json_loads scan_start ls
  = scan_lines json_loads scan_start (lines f) →
  scan_file json_loads (with_lines f ls) = scan_file json_loads f.
Proof.
  intros E. unfold scan_file, read_session. simpl. by rewrite E.
Qed.

(** A read error makes the scan of the file raise, whatever its lines. *)
Lemma read_error_raises (f : session_file) :
  is_Some (read_error f) → ∃ e, scan_file json_loads f = Raise e.
Proof.
  intros [e He]. unfold scan_file, read_session. rewrite He.
  destruct (scan_lines json_loads scan_start (lines f)); simpl; eauto.
Qed.

(** C4, amended: a non-blank line on which JSON decoding raises
    JSONDecodeError is skipped without an error and without a change of
    the scan state, and the scan goes on with the next line: the lines
    before and after it are scanned as if the line were not there, so the
    file yields the same result with or without it. *)
Theorem undecodable_line_is_skipped (st : scan_state) (f : session_file)
  (before after : list str) (line : str) :
  strip line ≠ [] →
  json_loads line = Raise JSONDecodeError →
  scan_line json_loads st line = Ret st ∧
  scan_lines json_loads st (line :: after) = scan_lines json_loads st after ∧
  scan_lines json_loads st (before ++ line :: after)
  = scan_lines json_loads st (before ++ after) ∧
  (lines f = before ++ line :: after →
   scan_file json_loads f
   = scan_file json_loads (with_lines f (before ++ after))).
Proof.
  intros _ E.
  assert (Hskip : ∀ st', scan_line json_loads st' line = Ret st')
    by (intros st'; by apply scan_line_undecodable).
  split; [apply Hskip|].
  split; [simpl; by rewrite Hskip|].
  split; [by apply scan_lines_skip|].
  intros Hf. symmetry. apply scan_file_with_lines.
  rewrite Hf. symmetry. by apply scan_lines_skip.
Qed.

(** C5: when the scan of one file raises, be it an error of [open] or of a
    read or any other error, that file adds nothing to the output, and the
    output is the one of the directory without that file: every other file
    is scanned and gives the conversation it gives on its own. *)
Theorem failing_file_is_isolated (fs1 fs2 : list session_file)
  (f : session_file) :
  is_Some (read_error f) ∨ (∃ e, scan_file json_loads f = Raise e) →
  contribution json_loads f = None ∧
  extract_droid_sessions json_loads
    {| sessions_dir_exists := true; jsonl_files := fs1 ++ f :: fs2 |}
  = extract_droid_sessions json_loads
      {| sessions_dir_exists := true; jsonl_files := fs1 ++ fs2 |}.
Proof.
  intros H.
  assert (Hc : contribution json_loads f = None).
  { destruct H as [H|H]; [apply read_error_raises in H|];
      destruct H as [e He]; unfold contribution; by rewrite He. }
  split; [done|].
  rewrite !extract_contributions, !omap_app. simpl. by rewrite Hc.
Qed.

(** C3, amended: the lines of a file that fail JSON decoding have no effect
    on what the file gives; a file whose scan raises any other error gives
    nothing; and in the output each file stands with its own contribution,
    between those of the files before it and after it, whatever happens in
    the other files. *)
Theorem failures_are_contained (fs1 fs2 : list session_file)
  (f : session_file) :
  contribution json_loads f = contribution json_loads (without_undecodable json_loads f) ∧
  (∀ e, scan_file json_loads f = Raise e → contribution json_loads f = None) ∧
  extract_droid_sessions json_loads
    {| sessions_dir_exists := true; jsonl_files := fs1 ++ f :: fs2 |}
  = extract_droid_sessions json_loads
      {| sessions_dir_exists := true; jsonl_files := fs1 |}
    ++ option_list (contribution json_loads (without_undecodable json_loads f))
    ++ extract_droid_sessions json_loads
         {| sessions_dir_exists := true; jsonl_files := fs2 |}.
Proof.
  assert (Hc : contribution json_loads f
               = contribution json_loads (without_undecodable json_loads f)).
  { unfold contribution, without_undecodable.
    rewrite scan_file_with_lines; [done|].
    apply scan_lines_without_undecodable. }
  split; [done|]. split.
  - intros e He. unfold contribution. by rewrite He.
  - rewrite !extract_contributions, omap_app, <- Hc. simpl.
    by destruct (contribution json_loads f).
Qed.

End Containment.

(** ** One record *)

Lemma eq_str_true (v : json) (s : str) : eq_str v s = true → v = JStr s.
Proof.
  destruct v; simpl; try discriminate.
  intros H. apply bool_decide_eq_true in H. by subst.
Qed.

Lemma message_of_record_dict (d m : gmap (list N) json) :
  dict_get d "message" (JDict ∅) = JDict m →
  message_of_record (JDict d)
  = if role_in_user_assistant (dict_get m "role" JNull) then
      let b := content_blocks
                 (content_list (dict_get m "content" (JList []))) in
      match str_items (text_content b) with
      | Some texts =>
          Ret (Some (built_message (dict_get m "role" JNull)
                       (dict_get d "timestamp" JNull) b texts))
      | None => Raise TypeError
      end
    else Ret None.
Proof.
  intros E. unfold message_of_record. simpl. rewrite E. simpl.
  destruct (role_in_user_assistant _); simpl; [|done].
  unfold py_join. by destruct (str_items _).
Qed.

Lemma message_of_record_Ret (obj : json) (r : option message) :
  message_of_record obj = Ret r →
  ∃ d m, obj = JDict d ∧ dict_get d "message" (JDict ∅) = JDict m.
Proof.
  unfold message_of_record. intros H.
  apply bind_Ret in H as (message0 & H1 & H).
  apply bind_Ret in H as (role0 & H2 & _).
  apply py_get_Ret in H1 as (d & -> & ->).
  apply py_get_Ret in H2 as (m & E & _). eauto.
Qed.

Lemma message_of_record_qualifying (d : gmap (list N) json)
  (r : option message) :
  eq_str (dict_get d "type" JNull) "message" = true →
  message_of_record (JDict d) = Ret r →
  qualifying (JDict d) = bool_decide (is_Some r).
Proof.
  intros Ht H. destruct (message_of_record_Ret _ _ H) as (d' & m & [= <-] & E).
  rewrite (message_of_record_dict d m E) in H.
  simpl. rewrite Ht, E. simpl.
  destruct (role_in_user_assistant _); simpl in *.
  - destruct (str_items _); [|discriminate]. by injection H as <-.
  - by injection H as <-.
Qed.

Lemma length_set_last_todos (msgs : list message) (v : json) :
  length (set_last_todos msgs v) = length msgs.
Proof. unfold set_last_todos. apply length_alter. Qed.

(** A record that is accepted adds one message when it qualifies and none
    when it does not. *)
Lemma process_record_length (st st' : scan_state) (obj : json) :
  process_record st obj = Ret st' →
  length (st_messages st')
  = length (st_messages st) + (if qualifying obj then 1 else 0).
Proof.
  unfold process_record. intros H.
  apply bind_Ret in H as (msg_type & H1 & H).
  apply py_get_Ret in H1 as (d & -> & ->).
  destruct (eq_str (dict_get d "type" JNull) "session_start") eqn:E1.
  { simpl in H. injection H as <-. simpl.
    apply eq_str_true in E1. rewrite E1. simpl. lia. }
  destruct (eq_str (dict_get d "type" JNull) "message") eqn:E2.
  { apply bind_Ret in H as (r & Hr & H).
    rewrite (message_of_record_qualifying d r E2 Hr).
    destruct r as [msg|]; injection H as <-; simpl.
    - rewrite length_app. simpl. done.
    - lia. }
  assert (Hq : qualifying (JDict d) = false) by (simpl; by rewrite E2).
  rewrite Hq.
  destruct (eq_str (dict_get d "type" JNull) "todo_state").
  - destruct (last_lacks_todos (st_messages st)).
    + simpl in H. injection H as <-. simpl. rewrite length_set_last_todos. lia.
    + injection H as <-. lia.
  - injection H as <-. lia.
Qed.

(** ** Messages of a file and conversations of the output *)

Section Counting.

Variable json_loads : str → res json.

Lemma qualifying_count_cons (line : str) (ls : list str) :
  qualifying_count json_loads (line :: ls)
  = match line_record json_loads line with
    | Some obj => if qualifying obj then 1 else 0
    | None => 0
    end + qualifying_count json_loads ls.
Proof.
  unfold qualifying_count, records. simpl.
  destruct (line_record json_loads line) as [obj|]; simpl; [|done].
  by destruct (qualifying obj).
Qed.

Lemma scan_lines_length (st st' : scan_state) (ls : list str) :
  scan_lines json_loads st ls = Ret st' →
  length (st_messages st')
  = length (st_messages st) + qualifying_count json_loads ls.
Proof.
  revert st. induction ls as [|line ls IH]; intros st.
  - intros [= <-]. unfold qualifying_count. simpl. lia.
  - intros H. simpl in H. apply bind_Ret in H as (st1 & H1 & H).
    apply IH in H. rewrite H, qualifying_count_cons.
    apply scan_line_Ret in H1 as [[-> ->]|(obj & -> & H1)]; [done|].
    apply process_record_length in H1. lia.
Qed.

Lemma scan_file_Ret (f : session_file) (r : option conversation) :
  scan_file json_loads f = Ret r →
  ∃ st, scan_lines json_loads scan_start (lines f) = Ret st ∧
        r = match st_messages st with
            | [] => None
            | _ :: _ => Some (make_conversation f st)
            end.
Proof.
  unfold scan_file, read_session. intros H.
  apply bind_Ret in H as (st & H1 & H).
  apply bind_Ret in H1 as (st1 & H1 & H2).
  destruct (read_error f); [discriminate|]. injection H2 as ->.
  exists st. split; [done|]. by destruct (st_messages st); injection H as <-.
Qed.

(** A file whose scan does not raise gives a conversation exactly when it
    has a qualifying record, with as many messages as such records. *)
Lemma scan_file_count (f : session_file) (r : option conversation) :
  scan_file json_loads f = Ret r →
  match r with
  | Some c =>
      0 < qualifying_count json_loads (lines f) ∧
      length (messages c) = qualifying_count json_loads (lines f) ∧
      source_file c = path f
  | None => qualifying_count json_loads (lines f) = 0
  end.
Proof.
  intros H. apply scan_file_Ret in H as (st & H & ->).
  apply scan_lines_length in H. simpl in H.
  destruct (st_messages st) as [|m ms] eqn:E; simpl in *; [done|].
  rewrite E. simpl. repeat split; lia.
Qed.

Lemma contribution_source_file (f : session_file) (c : conversation) :
  contribution json_loads f = Some c → source_file c = path f.
Proof.
  unfold contribution.
  destruct (scan_file json_loads f) as [[c'|]|e] eqn:E; try discriminate.
  intros [= <-]. by apply scan_file_count in E as (_ & _ & ?).
Qed.

Lemma conversations_of_others (p : str) (fs : list session_file) :
  p ∉ map path fs →
  conversations_of p (omap (contribution json_loads) fs) = [].
Proof.
  unfold conversations_of.
  induction fs as [|g fs IH]; simpl; [done|].
  intros Hp. apply not_elem_of_cons in Hp as [Hg Hp].
  destruct (contribution json_loads g) as [c|] eqn:E; simpl; [|by apply IH].
  apply contribution_source_file in E.
  rewrite bool_decide_eq_false_2; [by apply IH | congruence].
Qed.

(** C1, amended: for a file of the directory whose scan raises no error,
    the output holds a conversation of that file if and only if the file
    has a record of type [message] whose role is [user] or [assistant];
    it then holds exactly one, whose [messages] are as many as those
    records; with no such record it holds none. *)
Theorem conversation_iff_qualifying_message (fs1 fs2 : list session_file)
  (f : session_file) (r : option conversation) :
  NoDup (map path (fs1 ++ f :: fs2)) →
  scan_file json_loads f = Ret r →
  let out := extract_droid_sessions json_loads
               {| sessions_dir_exists := true;
                  jsonl_files := fs1 ++ f :: fs2 |} in
  let n := qualifying_count json_loads (lines f) in
  conversations_of (path f) out = option_list r ∧
  (n = 0 → r = None) ∧
  (0 < n → ∃ c, r = Some c ∧ length (messages c) = n).
Proof.
  intros Hnd Hr out n. subst out n.
  rewrite extract_contributions, omap_app. simpl.
  rewrite map_app in Hnd. simpl in Hnd.
  apply NoDup_app in Hnd as (_ & H1 & Hnd).
  apply NoDup_cons in Hnd as [H2 _].
  assert (H1' : path f ∉ map path fs1).
  { intros Hin. apply (H1 _ Hin). left. }
  pose proof (scan_file_count f r Hr) as Hc.
  split.
  - unfold conversations_of at 1. rewrite List.filter_app.
    fold (conversations_of (path f) (omap (contribution json_loads) fs1)).
    rewrite (conversations_of_others _ _ H1'). simpl.
    unfold contribution at 1. rewrite Hr.
    destruct r as [c|]; simpl.
    + destruct Hc as (_ & _ & Hc). rewrite bool_decide_eq_true_2 by done.
      f_equal. by apply conversations_of_others.
    + by apply conversations_of_others.
  - destruct r as [c|]; split; intros Hn.
    + lia.
    + exists c. split; [done|]. by destruct Hc as (_ & ? & _).
    + done.
    + lia.
Qed.

End Counting.

(** ** Title and owner of a session *)

Section Titles.

Variable json_loads : str → res json.

Lemma process_record_title (st st' : scan_state) (obj : json) :
  process_record st obj = Ret st' →
  st_title st' = (if is_session_start obj then title_of obj else st_title st) ∧
  st_owner st' = (if is_session_start obj then owner_of obj else st_owner st).
Proof.
  unfold process_record. intros H.
  apply bind_Ret in H as (msg_type & H1 & H).
  apply py_get_Ret in H1 as (d & -> & ->). simpl.
  destruct (eq_str (dict_get d "type" JNull) "session_start").
  { simpl in H. by injection H as <-. }
  destruct (eq_str (dict_get d "type" JNull) "message").
  { apply bind_Ret in H as (r & _ & H).
    by destruct r; injection H as <-. }
  destruct (eq_str (dict_get d "type" JNull) "todo_state").
  - destruct (last_lacks_todos _); simpl in H; by injection H as <-.
  - by injection H as <-.
Qed.

Lemma session_starts_cons (line : str) (ls : list str) :
  session_starts json_loads (line :: ls)
  = match line_record json_loads line with
    | Some obj => if is_session_start obj then [obj] else []
    | None => []
    end ++ session_starts json_loads ls.
Proof.
  unfold session_starts, records. simpl.
  destruct (line_record json_loads line) as [obj|]; simpl; [|done].
  by destruct (is_session_start obj).
Qed.

Lemma scan_lines_title (st st' : scan_state) (ls : list str) :
  scan_lines json_loads st ls = Ret st' →
  st_title st' = title_after (st_title st) (session_starts json_loads ls) ∧
  st_owner st' = owner_after (st_owner st) (session_starts json_loads ls).
Proof.
  unfold title_after, owner_after.
  revert st. induction ls as [|line ls IH]; intros st.
  - by intros [= <-].
  - intros H. simpl in H. apply bind_Ret in H as (st1 & H1 & H).
    apply IH in H as [-> ->]. rewrite session_starts_cons.
    apply scan_line_Ret in H1 as [[-> ->]|(obj & -> & H1)]; [done|].
    apply process_record_title in H1 as [-> ->].
    destruct (is_session_start obj); [|done]. simpl.
    rewrite last_cons. by destruct (last (session_starts json_loads ls)).
Qed.

(** C2, amended: the [session_title] and the [session_owner] of a
    conversation are those of the last [session_start] record of its file,
    the title being [New Session] when that record has none and the owner
    None when it has none; each later [session_start] record overwrites
    both. Without such a record both are None. *)
Theorem last_session_start_wins (f : session_file) (c : conversation) :
  scan_file json_loads f = Ret (Some c) →
  session_title c
  = match last (session_starts json_loads (lines f)) with
    | Some o => title_of o
    | None => JNull
    end ∧
  session_owner c
  = match last (session_starts json_loads (lines f)) with
    | Some o => owner_of o
    | None => JNull
    end.
Proof.
  intros H. apply scan_file_Ret in H as (st & H & Hc).
  apply scan_lines_title in H as [Ht Ho].
  destruct (st_messages st); [discriminate|]. injection Hc as ->.
  simpl. by rewrite Ht, Ho.
Qed.

End Titles.

(** ** Records of type [todo_state] *)

Lemma eq_str_other (v : json) (s t : str) :
  eq_str v s = true → s ≠ t → eq_str v t = false.
Proof.
  intros H Hne. apply eq_str_true in H as ->. simpl.
  by apply bool_decide_eq_false_2.
Qed.

Lemma set_last_todos_snoc (ms : list message) (m : message) (v : json) :
  set_last_todos (ms ++ [m]) v = ms ++ [set_todos m v].
Proof.
  unfold set_last_todos. rewrite length_app. simpl.
  replace (pred (length ms + 1)) with (length ms + 0) by lia.
  by rewrite alter_app_r.
Qed.

Lemma last_lacks_todos_snoc (ms : list message) (m : message) :
  last_lacks_todos (ms ++ [m]) = bool_decide (todos m = None).
Proof. unfold last_lacks_todos. by rewrite last_snoc. Qed.

(** C8: a [todo_state] record never fails and changes neither title nor
    owner. With no message appended so far it changes nothing. Otherwise
    it touches the last message only, and of it the [todos] key only: when
    that message has no [todos] key, the key is set to the [todos] value
    of the record (None when the record has none), and when it has one it
    keeps it, so that the first [todo_state] record after a message
    wins. *)
Theorem todo_state_attaches_to_last_message (st : scan_state)
  (d : gmap (list N) json) :
  eq_str (dict_get d "type" JNull) "todo_state" = true →
  ∃ st', process_record st (JDict d) = Ret st' ∧
    st_title st' = st_title st ∧ st_owner st' = st_owner st ∧
    (st_messages st = [] → st_messages st' = []) ∧
    (∀ ms m, st_messages st = ms ++ [m] →
       st_messages st'
       = ms ++ [{| role := role m;
                   content := content m;
                   timestamp := timestamp m;
                   thinking := thinking m;
                   tool_uses := tool_uses m;
                   tool_results := tool_results m;
                   todos := match todos m with
                            | None => Some (dict_get d "todos" JNull)
                            | Some t => Some t
                            end |}]).
Proof.
  intros Ht. unfold process_record. simpl.
  rewrite (eq_str_other _ _ "session_start" Ht) by done.
  rewrite (eq_str_other _ _ "message" Ht) by done.
  rewrite Ht.
  destruct (last_lacks_todos (st_messages st)) eqn:E; simpl.
  - eexists. split; [done|]. simpl. repeat split.
    + intros Hm. rewrite Hm in E. discriminate.
    + intros ms m Hm. rewrite Hm in E |- *.
      rewrite last_lacks_todos_snoc in E. apply bool_decide_eq_true in E.
      by rewrite set_last_todos_snoc, E.
  - exists st. repeat split; [done|].
    intros ms m Hm. rewrite Hm in E |- *.
    rewrite last_lacks_todos_snoc in E. apply bool_decide_eq_false in E.
    destruct m as [? ? ? ? ? ? [t|]]; simpl in *; [done|]. by destruct E.
Qed.

(** ** Content blocks of a message *)

Lemma content_block_fold (parts : list json) (acc : blocks) :
  text_content (fold_left content_block parts acc)
  = text_content acc ++ text_values parts ∧
  b_thinking (fold_left content_block parts acc)
  = default (b_thinking acc) (last (thinking_values parts)).
Proof.
  revert acc. induction parts as [|item parts IH]; intros acc; simpl.
  - by rewrite app_nil_r.
  - destruct (IH (content_block acc item)) as [-> ->].
    destruct item; simpl; try done.
    destruct (eq_str (dict_get d "type" JNull) "text") eqn:E1; simpl.
    { rewrite (eq_str_other _ _ "thinking" E1) by done.
      by rewrite <- app_assoc. }
    destruct (eq_str (dict_get d "type" JNull) "thinking") eqn:E2; simpl.
    { split; [done|]. rewrite last_cons.
      by destruct (last (thinking_values parts)). }
    by repeat case_match.
Qed.

Lemma content_blocks_text (parts : list json) :
  text_content (content_blocks parts) = text_values parts.
Proof. unfold content_blocks. by destruct (content_block_fold parts no_blocks). Qed.

Lemma content_blocks_thinking (parts : list json) :
  b_thinking (content_blocks parts) = default JNull (last (thinking_values parts)).
Proof. unfold content_blocks. by destruct (content_block_fold parts no_blocks). Qed.

Lemma join_str_newline (texts : list str) :
  join_str newline texts = newline_joined texts.
Proof.
  induction texts as [|t texts IH]; [done|].
  destruct texts as [|t' texts]; [done|].
  change (t ++ newline ++ join_str newline (t' :: texts)
          = t ++ 10%N :: newline_joined (t' :: texts)).
  by rewrite IH.
Qed.

(** C6: for a [message] record whose role is [user] or [assistant], when
    the text values of the [text]-type blocks of its content list are
    strings, a Message results and its [content] is these strings in block
    order with the line feed, character 10, between each two of them; it
    is the empty string when the list has no [text]-type block. (When a
    text value is not a string, the join raises and no Message results.) *)
Theorem content_is_joined_text (d m : gmap (list N) json) :
  dict_get d "message" (JDict ∅) = JDict m →
  role_in_user_assistant (dict_get m "role" JNull) = true →
  let parts := content_list (dict_get m "content" (JList [])) in
  match str_items (text_values parts) with
  | Some texts =>
      ∃ msg, message_of_record (JDict d) = Ret (Some msg) ∧
             content msg = newline_joined texts ∧
             (text_values parts = [] → content msg = [])
  | None => message_of_record (JDict d) = Raise TypeError
  end.
Proof.
  intros Hm Hrole parts. subst parts.
  rewrite (message_of_record_dict d m Hm), Hrole. simpl.
  rewrite content_blocks_text.
  destruct (str_items _) as [texts|] eqn:E; [|done].
  eexists. split; [done|]. simpl. split; [apply join_str_newline|].
  intros Hnil. rewrite Hnil in E. by injection E as <-.
Qed.

(** C7, amended: the Message of a [message] record has a [thinking] field
    exactly when the record has a [thinking]-type block and the [thinking]
    value of the last such block is truthy (a non-empty string, say); the
    field then holds that value. When that value is empty, null or absent,
    the Message has no [thinking] field. *)
Theorem thinking_is_last_truthy_value (d m : gmap (list N) json)
  (msg : message) :
  dict_get d "message" (JDict ∅) = JDict m →
  message_of_record (JDict d) = Ret (Some msg) →
  let parts := content_list (dict_get m "content" (JList [])) in
  thinking msg
  = match last (thinking_values parts) with
    | Some v => if truthy v then Some v else None
    | None => None
    end.
Proof.
  intros Hm H parts. subst parts.
  rewrite (message_of_record_dict d m Hm) in H.
  destruct (role_in_user_assistant _); [|discriminate]. simpl in H.
  destruct (str_items _); [|discriminate]. injection H as <-. simpl.
  rewrite content_blocks_thinking. unfold key_if_truthy.
  by destruct (last (thinking_values _)).
Qed.

(** C10, amended: for a [message] record whose role is [user] or
    [assistant] and whose [content] value is non-empty and neither a list
    nor a dict (a plain JSON string, say), the value is wrapped as a
    one-element list, its one item is skipped, and the [content] of the
    resulting Message is the empty string. *)
Theorem scalar_content_is_dropped (d m : gmap (list N) json) (v : json) :
  dict_get d "message" (JDict ∅) = JDict m →
  role_in_user_assistant (dict_get m "role" JNull) = true →
  m !! py "content" = Some v →
  truthy v = true → is_list v = false → is_dict v = false →
  content_list (dict_get m "content" (JList [])) = [v] ∧
  ∃ msg, message_of_record (JDict d) = Ret (Some msg) ∧ content msg = [].
Proof.
  intros Hm Hrole Hv Ht Hl Hd.
  assert (Hc : content_list (dict_get m "content" (JList [])) = [v]).
  { unfold dict_get. rewrite Hv. simpl.
    unfold content_list. rewrite Ht. by destruct v. }
  split; [done|].
  rewrite (message_of_record_dict d m Hm), Hrole. simpl. rewrite Hc.
  assert (Hb : content_blocks [v] = no_blocks) by (by destruct v).
  rewrite Hb. simpl. eauto.
Qed.

(** ** The tool keys of extracted messages *)

Lemma key_if_nonempty_field {A : Type} (l : list A) :
  nonempty_field (key_if_nonempty l) = has_key (key_if_nonempty l).
Proof. by destruct l. Qed.

Lemma message_of_record_tool_keys (obj : json) (msg : message) :
  message_of_record obj = Ret (Some msg) → tool_keys_nonempty msg.
Proof.
  intros H. destruct (message_of_record_Ret _ _ H) as (d & m & -> & E).
  rewrite (message_of_record_dict d m E) in H.
  destruct (role_in_user_assistant _); [|discriminate]. simpl in H.
  destruct (str_items _); [|discriminate]. injection H as <-.
  split; apply key_if_nonempty_field.
Qed.

Lemma set_last_todos_tool_keys (msgs : list message) (v : json) :
  Forall tool_keys_nonempty msgs →
  Forall tool_keys_nonempty (set_last_todos msgs v).
Proof.
  unfold set_last_todos. intros H. apply Forall_alter; [done|].
  by intros m _ Hm.
Qed.

Lemma process_record_tool_keys (st st' : scan_state) (obj : json) :
  process_record st obj = Ret st' →
  Forall tool_keys_nonempty (st_messages st) →
  Forall tool_keys_nonempty (st_messages st').
Proof.
  unfold process_record. intros H Hst.
  apply bind_Ret in H as (msg_type & H1 & H).
  destruct (eq_str msg_type "session_start").
  { apply bind_Ret in H as (t & _ & H). apply bind_Ret in H as (o & _ & H).
    by injection H as <-. }
  destruct (eq_str msg_type "message").
  { apply bind_Ret in H as (r & Hr & H).
    destruct r as [msg|]; injection H as <-; simpl; [|done].
    apply Forall_app. split; [done|].
    apply Forall_singleton. by eapply message_of_record_tool_keys. }
  destruct (eq_str msg_type "todo_state"); [|by injection H as <-].
  destruct (last_lacks_todos _); [|by injection H as <-].
  apply bind_Ret in H as (v & _ & H). injection H as <-. simpl.
  by apply set_last_todos_tool_keys.
Qed.

Section ToolKeys.

Variable json_loads : str → res json.

Lemma scan_lines_tool_keys (st st' : scan_state) (ls : list str) :
  scan_lines json_loads st ls = Ret st' →
  Forall tool_keys_nonempty (st_messages st) →
  Forall tool_keys_nonempty (st_messages st').
Proof.
  revert st. induction ls as [|line ls IH]; intros st; simpl.
  - by intros [= <-].
  - intros H Hst. apply bind_Ret in H as (st1 & H1 & H).
    apply (IH st1 H).
    apply scan_line_Ret in H1 as [[_ ->]|(obj & _ & H1)]; [done|].
    by eapply process_record_tool_keys.
Qed.

Lemma contribution_tool_keys (f : session_file) (c : conversation) :
  contribution json_loads f = Some c →
  Forall tool_keys_nonempty (messages c).
Proof.
  unfold contribution.
  destruct (scan_file json_loads f) as [[c'|]|e] eqn:E; try discriminate.
  intros [= <-]. apply scan_file_Ret in E as (st & H & Hc).
  apply scan_lines_tool_keys in H; [|by apply Forall_nil].
  destruct (st_messages st) eqn:Em; [discriminate|].
  injection Hc as ->. simpl. by rewrite Em.
Qed.

Lemma extract_tool_keys (env : environment) :
  Forall (fun c => Forall tool_keys_nonempty (messages c))
         (extract_droid_sessions json_loads env).
Proof.
  unfold extract_droid_sessions, find_droid_sessions.
  destruct (sessions_dir_exists env); [|by apply Forall_nil].
  rewrite for_jsonl_files_contributions. simpl.
  induction (jsonl_files env) as [|f fs IH]; simpl; [by apply Forall_nil|].
  destruct (contribution json_loads f) as [c|] eqn:E; [|done].
  apply Forall_cons. split; [|done]. by eapply contribution_tool_keys.
Qed.

End ToolKeys.

(** ** The counters *)

Lemma sum_app (l1 l2 : list nat) : sum (l1 ++ l2) = sum l1 + sum l2.
Proof. unfold sum. induction l1 as [|n l1 IH]; simpl; lia. Qed.

Lemma sum_ones {A : Type} (p : A → bool) (l : list A) :
  sum (x ← l; if p x then [1] else []) = count_if p l.
Proof.
  unfold count_if. induction l as [|x l IH]; [done|].
  rewrite bind_cons, sum_app, IH. simpl. by destruct (p x).
Qed.

Lemma count_if_app {A : Type} (p : A → bool) (l1 l2 : list A) :
  count_if p (l1 ++ l2) = count_if p l1 + count_if p l2.
Proof. unfold count_if. by rewrite List.filter_app, length_app. Qed.

Lemma count_if_ext {A : Type} (p q : A → bool) (l : list A) :
  Forall (fun x => p x = q x) l → count_if p l = count_if q l.
Proof.
  unfold count_if. induction 1 as [|x l Hx _ IH]; simpl; [done|].
  rewrite Hx. destruct (q x); simpl; by rewrite IH.
Qed.

Lemma sum_messages (p : message → bool) (cs : list conversation) :
  sum (c ← cs; m ← messages c; if p m then [1] else [])
  = count_if p (all_messages cs).
Proof.
  unfold all_messages. induction cs as [|c cs IH]; [done|].
  rewrite bind_cons, sum_app, IH, sum_ones. simpl. by rewrite count_if_app.
Qed.

Lemma sum_lengths (cs : list conversation) :
  sum (c ← cs; [length (messages c)])
  = sum (map (fun c => length (messages c)) cs).
Proof.
  induction cs as [|c cs IH]; [done|].
  rewrite bind_cons, sum_app, IH. simpl. lia.
Qed.

Lemma any_tool_keys (ms : list message) :
  Forall tool_keys_nonempty ms →
  any (fun m => has_key (tool_uses m) || has_key (tool_results m)) ms
  = existsb (fun m => nonempty_field (tool_uses m)
                      || nonempty_field (tool_results m)) ms.
Proof.
  unfold any. induction 1 as [|m ms [H1 H2] _ IH]; simpl; [done|].
  by rewrite H1, H2, IH.
Qed.

(** C9: on the conversations that the extraction returns, the five
    counters that [main] computes are those recomputed as the
    specification words them: the sum of the [messages] lengths, the
    messages of role [user], those of role [assistant], the conversations
    with a message that has a non-empty [tool_uses] or [tool_results]
    field, and those with a message that has a [thinking] field. *)
Theorem counters_equal_recomputation (json_loads : str → res json)
  (env : environment) :
  main_statistics (extract_droid_sessions json_loads env)
  = spec_statistics (extract_droid_sessions json_loads env).
Proof.
  pose proof (extract_tool_keys json_loads env) as Hkeys.
  unfold main_statistics, spec_statistics.
  rewrite sum_lengths, !sum_messages, !sum_ones. f_equal.
  apply count_if_ext. eapply Forall_impl; [exact Hkeys|].
  intros c Hc. by apply any_tool_keys.
Qed.

(** ** Files whose scan raises no error *)

Lemma process_record_well_formed (st : scan_state) (obj : json) :
  (∃ st', process_record st obj = Ret st') ↔ well_formed_record obj = true.
Proof.
  unfold process_record.
  destruct obj; simpl; try (split; [intros [? [=]] | discriminate]).
  destruct (eq_str (dict_get d "type" JNull) "session_start"); simpl.
  { split; eauto. }
  destruct (eq_str (dict_get d "type" JNull) "message").
  - destruct (dict_get d "message" (JDict ∅)) as [| | | | |l|m] eqn:Em;
      try (unfold message_of_record; simpl; rewrite Em; simpl;
           split; [intros [? [=]] | discriminate]).
    rewrite (message_of_record_dict d m Em).
    destruct (role_in_user_assistant _); simpl; [|split; eauto].
    rewrite content_blocks_text.
    destruct (str_items _) as [texts|]; simpl.
    + split; eauto.
    + split; [intros [? [=]] | discriminate].
  - destruct (eq_str (dict_get d "type" JNull) "todo_state");
      [destruct (last_lacks_todos _)|]; simpl; split; eauto.
Qed.

Section WellFormed.

Variable json_loads : str → res json.

Lemma scan_line_well_formed (st : scan_state) (line : str) :
  (∃ st', scan_line json_loads st line = Ret st')
  ↔ well_formed_line json_loads line = true.
Proof.
  unfold scan_line, well_formed_line.
  destruct (strip line); [split; eauto|].
  destruct (json_loads line) as [obj|e]; simpl.
  - rewrite <- (process_record_well_formed st obj).
    destruct (process_record st obj) as [st1|e] eqn:E; simpl.
    + split; eauto.
    + destruct e; try (split; intros [? [=]]).
      by apply process_record_not_decode_error in E.
  - destruct e; simpl; split; eauto; try discriminate; intros [? [=]].
Qed.

Lemma scan_lines_well_formed (st : scan_state) (ls : list str) :
  (∃ st', scan_lines json_loads st ls = Ret st')
  ↔ forallb (well_formed_line json_loads) ls = true.
Proof.
  revert st. induction ls as [|line ls IH]; intros st; simpl.
  - split; eauto.
  - rewrite andb_true_iff, <- (scan_line_well_formed st line). split.
    + intros [st' H]. apply bind_Ret in H as (st1 & H1 & H).
      split; [eauto|]. apply (IH st1). eauto.
    + intros [[st1 H1] H]. rewrite H1. simpl. by apply IH.
Qed.

(** The scan of a file returns, with or without a conversation, exactly
    when the file is well formed. *)
Lemma scan_file_well_formed (f : session_file) :
  (∃ r, scan_file json_loads f = Ret r) ↔ well_formed_file json_loads f = true.
Proof.
  unfold well_formed_file.
  rewrite andb_true_iff, bool_decide_eq_true,
    <- (scan_lines_well_formed scan_start).
  unfold scan_file, read_session. split.
  - intros [r H]. apply bind_Ret in H as (st & H & _).
    apply bind_Ret in H as (st1 & H1 & H).
    destruct (read_error f); [discriminate|]. eauto.
  - intros [-> [st H]]. rewrite H. simpl. destruct (st_messages st); eauto.
Qed.

End WellFormed.

(** ** The theorems on sample files *)

Lemma undecodable_line_is_skipped_witness :
  scan_file Sample.loads
    (Sample.file "s1" [Sample.user_hi; Sample.truncated; Sample.assistant_a_b])
  = scan_file Sample.loads
      (Sample.file "s1" [Sample.user_hi; Sample.assistant_a_b]).
Proof.
  refine (proj2 (proj2 (proj2
    (undecodable_line_is_skipped Sample.loads scan_start
       (Sample.file "s1"
          [Sample.user_hi; Sample.truncated; Sample.assistant_a_b])
       [jline Sample.user_hi] [jline Sample.assistant_a_b]
       (jline Sample.truncated) _ _))) _).
  - vm_compute. discriminate.
  - vm_compute. reflexivity.
  - reflexivity.
Defined.

Lemma failing_file_is_isolated_witness :
  extract_droid_sessions Sample.loads
    (Sample.sessions
       [Sample.file "s1" [Sample.user_hi];
        Sample.unreadable "s2" [Sample.user_hi];
        Sample.file "s3" [Sample.assistant_a_b]])
  = extract_droid_sessions Sample.loads
      (Sample.sessions
         [Sample.file "s1" [Sample.user_hi];
          Sample.file "s3" [Sample.assistant_a_b]]).
Proof.
  refine (proj2
    (failing_file_is_isolated Sample.loads
       [Sample.file "s1" [Sample.user_hi]]
       [Sample.file "s3" [Sample.assistant_a_b]]
       (Sample.unreadable "s2" [Sample.user_hi]) _)).
  left. vm_compute. eexists. reflexivity.
Defined.

Lemma failures_are_contained_witness :
  contribution Sample.loads
    (Sample.file "s2" [Sample.truncated; Sample.user_hi])
  = contribution Sample.loads (Sample.file "s2" [Sample.user_hi]).
Proof.
  exact (proj1
    (failures_are_contained Sample.loads [] []
       (Sample.file "s2" [Sample.truncated; Sample.user_hi]))).
Defined.

Lemma conversation_iff_qualifying_message_witness :
  ∃ c,
    conversations_of
      (path (Sample.file "s1"
               [Sample.start_A; Sample.user_hi; Sample.truncated;
                Sample.system_note; Sample.assistant_a_b]))
      (extract_droid_sessions Sample.loads
         (Sample.sessions
            [Sample.file "s0" [Sample.start_B; Sample.system_note];
             Sample.file "s1"
               [Sample.start_A; Sample.user_hi; Sample.truncated;
                Sample.system_note; Sample.assistant_a_b];
             Sample.file "s2" [Sample.user_hi]]))
    = [c] ∧ length (messages c) = 2.
Proof.
  edestruct (conversation_iff_qualifying_message Sample.loads
               [Sample.file "s0" [Sample.start_B; Sample.system_note]]
               [Sample.file "s2" [Sample.user_hi]]
               (Sample.file "s1"
                  [Sample.start_A; Sample.user_hi; Sample.truncated;
                   Sample.system_note; Sample.assistant_a_b]))
    as (Hout & _ & Hsome).
  - apply (bool_decide_unpack _). vm_compute. exact I.
  - vm_compute. reflexivity.
  - destruct Hsome as (c & Hc & Hlen); [vm_compute; lia|].
    exists c. split; [|exact Hlen].
    etransitivity; [exact Hout|]. rewrite Hc. reflexivity.
Defined.

Lemma last_session_start_wins_witness :
  ∃ c,
    scan_file Sample.loads
      (Sample.file "s1" [Sample.start_A; Sample.user_hi; Sample.start_B])
    = Ret (Some c) ∧
    session_title c = JStr "B" ∧ session_owner c = JStr "bob".
Proof.
  eexists. split; [vm_compute; reflexivity|].
  exact (last_session_start_wins Sample.loads
           (Sample.file "s1" [Sample.start_A; Sample.user_hi; Sample.start_B])
           _ eq_refl).
Defined.

Lemma todo_state_attaches_to_last_message_witness :
  ∃ st',
    process_record Sample.after_user_hi
      (jobj [("type", JStr "todo_state"); ("todos", JStr "t1")]) = Ret st' ∧
    st_messages st'
    = [{| role := JStr "user"; content := py "hi"; timestamp := JNull;
          thinking := None; tool_uses := None; tool_results := None;
          todos := Some (JStr "t1") |}].
Proof.
  destruct (todo_state_attaches_to_last_message Sample.after_user_hi
              (jmap [("type", JStr "todo_state"); ("todos", JStr "t1")])
              eq_refl)
    as (st' & Hst' & _ & _ & _ & Hlast).
  exists st'. split; [exact Hst'|].
  exact (Hlast [] Sample.hi_message eq_refl).
Defined.

Lemma content_is_joined_text_witness :
  ∃ msg,
    message_of_record
      (Sample.message_record "assistant"
         (JList [Sample.text_block "a"; Sample.text_block "b"]))
    = Ret (Some msg) ∧
    content msg = [97%N; 10%N; 98%N].
Proof.
  destruct (content_is_joined_text
              (jmap (Sample.record_fields "assistant"
                       (JList [Sample.text_block "a"; Sample.text_block "b"])))
              (jmap (Sample.message_fields "assistant"
                       (JList [Sample.text_block "a"; Sample.text_block "b"])))
              eq_refl eq_refl)
    as (msg & Hmsg & Hcontent & _).
  exists msg. split; [exact Hmsg | exact Hcontent].
Defined.

Lemma thinking_is_last_truthy_value_witness :
  ∃ msg,
    message_of_record
      (Sample.message_record "assistant"
         (JList [Sample.thinking_block "x"; Sample.thinking_block "y"]))
    = Ret (Some msg) ∧
    thinking msg = Some (JStr "y").
Proof.
  eexists. split; [vm_compute; reflexivity|].
  exact (thinking_is_last_truthy_value
           (jmap (Sample.record_fields "assistant"
                    (JList [Sample.thinking_block "x";
                            Sample.thinking_block "y"])))
           (jmap (Sample.message_fields "assistant"
                    (JList [Sample.thinking_block "x";
                            Sample.thinking_block "y"])))
           _ eq_refl eq_refl).
Defined.

Lemma scalar_content_is_dropped_witness :
  ∃ msg,
    message_of_record (Sample.message_record "user" (JStr "hello"))
    = Ret (Some msg) ∧
    content msg = [].
Proof.
  exact (proj2
    (scalar_content_is_dropped
       (jmap (Sample.record_fields "user" (JStr "hello")))
       (jmap (Sample.message_fields "user" (JStr "hello")))
       (JStr "hello") eq_refl eq_refl eq_refl eq_refl eq_refl eq_refl)).
Defined.

Example sample_after_user_hi :
  scan_lines Sample.loads scan_start [jline Sample.user_hi]
  = Ret Sample.after_user_hi.
Proof. vm_compute. reflexivity. Qed.

Example sample_second_todo_ignored :
  (st ← scan_lines Sample.loads scan_start
          (map jline [Sample.todo_2; Sample.user_hi; Sample.todo_1;
                      Sample.todo_2]);
   Ret (map todos (st_messages st)))
  = Ret [Some (JStr "t1")].
Proof. vm_compute. reflexivity. Qed.

(** ** Where the code departs from the specification *)

(** C1 as stated fails: a file with a qualifying record gives no
    conversation when a later record makes the scan raise. Here the second
    line decodes to an object whose [message] is null, [message.get] raises
    AttributeError, and the outer handler drops the file. *)
Lemma qualifying_message_without_conversation :
  let f := Sample.file "s1" [Sample.user_hi; Sample.message_null] in
  qualifying_count Sample.loads (lines f) = 1 ∧
  scan_file Sample.loads f = Raise AttributeError ∧
  extract_droid_sessions Sample.loads (Sample.sessions [f]) = [].
Proof. vm_compute. repeat split; reflexivity. Qed.

(** C2 as stated fails: with two [session_start] records in a file, the
    conversation has the title and the owner of the second one. *)
Lemma first_session_start_is_overwritten :
  let f := Sample.file "s1"
             [Sample.start_A; Sample.user_hi; Sample.start_B] in
  ∃ c first,
    scan_file Sample.loads f = Ret (Some c) ∧
    head (session_starts Sample.loads (lines f)) = Some first ∧
    title_of first = JStr "A" ∧ owner_of first = JStr "ann" ∧
    session_title c = JStr "B" ∧ session_owner c = JStr "bob" ∧
    session_title c ≠ title_of first ∧ session_owner c ≠ owner_of first.
Proof.
  eexists _, _.
  split; [vm_compute; reflexivity|]. split; [vm_compute; reflexivity|].
  vm_compute. repeat split; (reflexivity || discriminate).
Qed.

(** C3 as stated fails: a corrupt record that is valid JSON, here one whose
    [message] is null, is not contained at the line: the valid [message]
    record after it is lost with the whole file. *)
Lemma corrupt_record_discards_the_file :
  let f := Sample.file "s1" [Sample.message_null; Sample.user_hi] in
  ∃ corrupt valid,
    records Sample.loads (lines f) = [corrupt; valid] ∧
    process_record scan_start corrupt = Raise AttributeError ∧
    qualifying valid = true ∧
    scan_file Sample.loads (Sample.file "s1" [Sample.user_hi])
    = Ret (Some (make_conversation f Sample.after_user_hi)) ∧
    scan_file Sample.loads f = Raise AttributeError ∧
    extract_droid_sessions Sample.loads (Sample.sessions [f]) = [].
Proof.
  eexists _, _. split; [vm_compute; reflexivity|].
  vm_compute. repeat split; reflexivity.
Qed.

(** C4 as stated fails: a non-blank line can fail JSON decoding with an
    error that is not a JSONDecodeError. On a line of 3000 opening
    brackets [json.loads] raises RecursionError; the inner handler does
    not catch it, and the valid [message] record on the next line is lost
    with the whole file. *)
Lemma deep_nesting_is_not_skipped :
  let f := {| stem := "s1"; path := "s1.jsonl";
              lines := [Sample2.deep_line; jline Sample.user_hi];
              read_error := None |} in
  strip Sample2.deep_line ≠ [] ∧
  Sample2.loads_deep Sample2.deep_line = Raise RecursionError ∧
  scan_file Sample2.loads_deep (with_lines f [jline Sample.user_hi])
  = Ret (Some (make_conversation f Sample.after_user_hi)) ∧
  scan_file Sample2.loads_deep f = Raise RecursionError ∧
  scan_file Sample2.loads_deep f
  ≠ scan_file Sample2.loads_deep (with_lines f [jline Sample.user_hi]) ∧
  extract_droid_sessions Sample2.loads_deep (Sample.sessions [f]) = [].
Proof.
  vm_compute. repeat split; (reflexivity || discriminate).
Qed.

(** C7 as stated fails: a record whose only [thinking]-type block has the
    empty string as its value gives a Message without a [thinking] field,
    and so does one whose last such block has it. *)
Lemma empty_thinking_gives_no_field :
  ∃ msg1 msg2,
    message_of_record
      (Sample.message_record "assistant" (JList [Sample.thinking_block ""]))
    = Ret (Some msg1) ∧
    message_of_record
      (Sample.message_record "assistant"
         (JList [Sample.thinking_block "x"; Sample.thinking_block ""]))
    = Ret (Some msg2) ∧
    thinking msg1 = None ∧ thinking msg2 = None ∧
    thinking msg1 ≠ Some (JStr "") ∧ thinking msg2 ≠ Some (JStr "").
Proof.
  eexists _, _. split; [vm_compute; reflexivity|].
  split; [vm_compute; reflexivity|].
  simpl. repeat split; (reflexivity || discriminate).
Qed.

(** C10 as stated fails: a [content] value that is a single block, a
    non-empty value that is not a list, is wrapped and then read as a
    block, so that its text is the content of the Message. *)
Lemma dict_content_is_read_as_a_block :
  let v := Sample.text_block "a" in
  ∃ msg,
    truthy v = true ∧ is_list v = false ∧
    message_of_record (Sample.message_record "user" v) = Ret (Some msg) ∧
    content msg = py "a" ∧ content msg ≠ [].
Proof.
  eexists. split; [vm_compute; reflexivity|]. split; [reflexivity|].
  split; [vm_compute; reflexivity|].
  simpl. split; [reflexivity | discriminate].
Qed.

(** ** Further properties of the content dispatch *)

Lemma content_block_fold_tools (parts : list json) (acc : blocks) :
  b_tool_uses (fold_left content_block parts acc)
  = b_tool_uses acc ++ tool_use_values parts ∧
  b_tool_results (fold_left content_block parts acc)
  = b_tool_results acc ++ tool_result_values parts.
Proof.
  revert acc. induction parts as [|item parts IH]; intros acc; simpl.
  - by rewrite !app_nil_r.
  - destruct (IH (content_block acc item)) as [-> ->].
    destruct item; simpl; try done.
    destruct (eq_str (dict_get d "type" JNull) "text") eqn:E1; simpl.
    { rewrite (eq_str_other _ _ "tool_use" E1) by done.
      by rewrite (eq_str_other _ _ "tool_result" E1) by done. }
    destruct (eq_str (dict_get d "type" JNull) "thinking") eqn:E2; simpl.
    { rewrite (eq_str_other _ _ "tool_use" E2) by done.
      by rewrite (eq_str_other _ _ "tool_result" E2) by done. }
    destruct (eq_str (dict_get d "type" JNull) "tool_use") eqn:E3; simpl.
    { rewrite (eq_str_other _ _ "tool_result" E3) by done.
      by rewrite <- app_assoc. }
    destruct (eq_str (dict_get d "type" JNull) "tool_result"); simpl; [|done].
    by rewrite <- app_assoc.
Qed.

Lemma message_of_record_Some (d m : gmap (list N) json) (msg : message) :
  dict_get d "message" (JDict ∅) = JDict m →
  message_of_record (JDict d) = Ret (Some msg) →
  role_in_user_assistant (dict_get m "role" JNull) = true ∧
  ∃ texts,
    str_items (text_content
                 (content_blocks
                    (content_list (dict_get m "content" (JList [])))))
    = Some texts ∧
    msg = built_message (dict_get m "role" JNull)
            (dict_get d "timestamp" JNull)
            (content_blocks (content_list (dict_get m "content" (JList []))))
            texts.
Proof.
  intros Hm H. rewrite (message_of_record_dict d m Hm) in H.
  destruct (role_in_user_assistant _); [|discriminate]. simpl in H.
  destruct (str_items _) as [texts|]; [|discriminate].
  injection H as <-. eauto.
Qed.

(** X1: the Message of a record has the key [tool_uses] exactly when the
    content list has a [tool_use]-type block, and then holds one entry
    (id, name, input; None for a missing key) for each such block, in
    block order; the same for [tool_results] and the [tool_result]-type
    blocks. *)
Theorem tool_entries_follow_blocks (d m : gmap (list N) json)
  (msg : message) :
  dict_get d "message" (JDict ∅) = JDict m →
  message_of_record (JDict d) = Ret (Some msg) →
  let parts := content_list (dict_get m "content" (JList [])) in
  tool_uses msg
  = match tool_use_values parts with
    | [] => None
    | _ :: _ => Some (tool_use_values parts)
    end ∧
  tool_results msg
  = match tool_result_values parts with
    | [] => None
    | _ :: _ => Some (tool_result_values parts)
    end.
Proof.
  intros Hm H parts. subst parts.
  destruct (message_of_record_Some d m msg Hm H) as (_ & texts & _ & ->).
  simpl. unfold content_blocks.
  destruct (content_block_fold_tools
              (content_list (dict_get m "content" (JList []))) no_blocks)
    as [-> ->].
  simpl. unfold key_if_nonempty.
  split; [by destruct (tool_use_values _) | by destruct (tool_result_values _)].
Qed.

Lemma content_block_unknown (acc : blocks) (item : json) :
  known_block item = false → content_block acc item = acc.
Proof.
  destruct item; simpl; try done. intros H.
  repeat (apply orb_false_elim in H as [H ?]).
  by repeat case_match.
Qed.

Lemma fold_content_block_known (parts : list json) (acc : blocks) :
  fold_left content_block (List.filter known_block parts) acc
  = fold_left content_block parts acc.
Proof.
  revert acc. induction parts as [|item parts IH]; intros acc; simpl; [done|].
  destruct (known_block item) eqn:E; simpl; [apply IH|].
  by rewrite (content_block_unknown acc item E).
Qed.

(** X2: the items of a content list that are not objects, and the blocks
    whose type is none of [text], [thinking], [tool_use] and
    [tool_result], have no effect: the record gives the same result, be it
    a Message, a skip or an error, as the record without them. *)
Theorem unknown_blocks_have_no_effect (d m : gmap (list N) json)
  (parts : list json) :
  dict_get d "message" (JDict ∅) = JDict m →
  m !! py "content" = Some (JList parts) →
  message_of_record
    (JDict (<[py "message" :=
                JDict (<[py "content" :=
                           JList (List.filter known_block parts)]> m)]> d))
  = message_of_record (JDict d).
Proof.
  intros Hm Hc.
  rewrite (message_of_record_dict d m Hm).
  rewrite (message_of_record_dict _
             (<[py "content" := JList (List.filter known_block parts)]> m));
    [|unfold dict_get; by rewrite lookup_insert_eq].
  unfold dict_get.
  rewrite (lookup_insert_ne m (py "content") (py "role")) by done.
  rewrite (lookup_insert_ne d (py "message") (py "timestamp")) by done.
  rewrite lookup_insert_eq, Hc. simpl.
  unfold content_blocks. by rewrite fold_content_block_known.
Qed.

(** X3: when the [content] of a [message] record of role [user] or
    [assistant] is absent or falsy (null, false, zero, the empty string,
    list or object), the record still gives a Message: its content is the
    empty string and it has none of the optional keys. *)
Theorem falsy_content_gives_bare_message (d m : gmap (list N) json) :
  dict_get d "message" (JDict ∅) = JDict m →
  role_in_user_assistant (dict_get m "role" JNull) = true →
  truthy (dict_get m "content" (JList [])) = false →
  message_of_record (JDict d)
  = Ret (Some {| role := dict_get m "role" JNull;
                 content := [];
                 timestamp := dict_get d "timestamp" JNull;
                 thinking := None;
                 tool_uses := None;
                 tool_results := None;
                 todos := None |}).
Proof.
  intros Hm Hrole Hf.
  rewrite (message_of_record_dict d m Hm), Hrole.
  assert (Hc : content_list (dict_get m "content" (JList [])) = []).
  { destruct (dict_get m "content" (JList [])) as [| | | | |l|];
      simpl in *; first [done | by rewrite Hf | by destruct l]. }
  by rewrite Hc.
Qed.

(** ** Further properties of the scan of a file *)

Lemma process_record_session_start (st : scan_state)
  (d : gmap (list N) json) :
  eq_str (dict_get d "type" JNull) "session_start" = true →
  process_record st (JDict d)
  = Ret {| st_messages := st_messages st;
           st_title := dict_get d "title" (JStr "New Session");
           st_owner := dict_get d "owner" JNull |}.
Proof. intros Ht. unfold process_record. simpl. by rewrite Ht. Qed.

Lemma process_record_message (st : scan_state) (d : gmap (list N) json) :
  eq_str (dict_get d "type" JNull) "message" = true →
  process_record st (JDict d)
  = r ← message_of_record (JDict d);
    match r with
    | None => Ret st
    | Some msg =>
        Ret {| st_messages := st_messages st ++ [msg];
               st_title := st_title st; st_owner := st_owner st |}
    end.
Proof.
  intros Ht. unfold process_record. simpl.
  by rewrite (eq_str_other _ _ "session_start" Ht), Ht.
Qed.

Lemma process_record_todo_state (st : scan_state) (d : gmap (list N) json) :
  eq_str (dict_get d "type" JNull) "todo_state" = true →
  process_record st (JDict d)
  = Ret (if last_lacks_todos (st_messages st) then
           {| st_messages :=
                set_last_todos (st_messages st) (dict_get d "todos" JNull);
              st_title := st_title st; st_owner := st_owner st |}
         else st).
Proof.
  intros Ht. unfold process_record. simpl.
  rewrite (eq_str_other _ _ "session_start" Ht) by done.
  rewrite (eq_str_other _ _ "message" Ht) by done.
  rewrite Ht. by destruct (last_lacks_todos _).
Qed.

Lemma process_record_other (st : scan_state) (d : gmap (list N) json) :
  eq_str (dict_get d "type" JNull) "session_start" = false →
  eq_str (dict_get d "type" JNull) "message" = false →
  eq_str (dict_get d "type" JNull) "todo_state" = false →
  process_record st (JDict d) = Ret st.
Proof. intros H1 H2 H3. unfold process_record. simpl. by rewrite H1, H2, H3. Qed.

(** The four cases of the dispatch. *)
Lemma process_record_cases (st st' : scan_state) (obj : json) :
  process_record st obj = Ret st' →
  ∃ d, obj = JDict d ∧
    ((eq_str (dict_get d "type" JNull) "session_start" = true ∧
      st_messages st' = st_messages st) ∨
     (eq_str (dict_get d "type" JNull) "message" = true ∧
      ((message_of_record obj = Ret None ∧ st' = st) ∨
       ∃ msg, message_of_record obj = Ret (Some msg) ∧
              st_messages st' = st_messages st ++ [msg])) ∨
     (eq_str (dict_get d "type" JNull) "message" = false ∧
      (st_messages st' = st_messages st ∨
       ∃ v, last_lacks_todos (st_messages st) = true ∧
            st_messages st' = set_last_todos (st_messages st) v))).
Proof.
  intros H. destruct obj; try discriminate. exists d. split; [done|].
  destruct (eq_str (dict_get d "type" JNull) "session_start") eqn:E1.
  { rewrite (process_record_session_start st d E1) in H.
    injection H as <-. left. eauto. }
  destruct (eq_str (dict_get d "type" JNull) "message") eqn:E2.
  { rewrite (process_record_message st d E2) in H.
    apply bind_Ret in H as (r & Hr & H). right. left. split; [done|].
    destruct r as [msg|]; injection H as <-; eauto. }
  right. right. split; [done|].
  destruct (eq_str (dict_get d "type" JNull) "todo_state") eqn:E3.
  - rewrite (process_record_todo_state st d E3) in H. injection H as <-.
    destruct (last_lacks_todos _) eqn:E; eauto.
  - rewrite (process_record_other st d E1 E2 E3) in H. injection H as <-. eauto.
Qed.

Lemma message_of_record_todos (obj : json) (msg : message) :
  message_of_record obj = Ret (Some msg) → todos msg = None.
Proof.
  intros H. destruct (message_of_record_Ret _ _ H) as (d & m & -> & E).
  by destruct (message_of_record_Some d m msg E H) as (_ & texts & _ & ->).
Qed.

Lemma clear_todos_fresh (m : message) : todos m = None → clear_todos m = m.
Proof. destruct m. simpl. by intros ->. Qed.

Lemma map_alter_same {A B : Type} (h : A → B) (g : A → A) (i : nat)
  (l : list A) :
  (∀ x, h (g x) = h x) → map h (alter g i l) = map h l.
Proof.
  intros Hg. revert i. induction l as [|x l IH]; intros [|i]; simpl; try done.
  - by rewrite Hg.
  - f_equal. apply IH.
Qed.

Lemma clear_todos_set_last (msgs : list message) (v : json) :
  map clear_todos (set_last_todos msgs v) = map clear_todos msgs.
Proof. unfold set_last_todos. by apply map_alter_same. Qed.

Lemma process_record_messages (st st' : scan_state) (obj : json) :
  process_record st obj = Ret st' →
  map clear_todos (st_messages st')
  = map clear_todos (st_messages st) ++ option_list (record_message obj).
Proof.
  intros H.
  destruct (process_record_cases st st' obj H)
    as (d & -> & [[E ->]|[[E [[Hr ->]|(msg & Hr & ->)]]|[E [->|(v & _ & ->)]]]]);
    unfold record_message.
  - rewrite (eq_str_other _ _ "message" E) by done. by rewrite app_nil_r.
  - rewrite E, Hr. by rewrite app_nil_r.
  - rewrite E, Hr, map_app. simpl.
    by rewrite (clear_todos_fresh msg (message_of_record_todos _ _ Hr)).
  - rewrite E. by rewrite app_nil_r.
  - rewrite E, clear_todos_set_last. by rewrite app_nil_r.
Qed.

Section FileOrder.

Variable json_loads : str → res json.

Lemma scan_lines_messages (st st' : scan_state) (ls : list str) :
  scan_lines json_loads st ls = Ret st' →
  map clear_todos (st_messages st')
  = map clear_todos (st_messages st) ++ file_messages json_loads ls.
Proof.
  unfold file_messages, records.
  revert st. induction ls as [|line ls IH]; intros st.
  - intros [= <-]. by rewrite app_nil_r.
  - intros H. simpl in H. apply bind_Ret in H as (st1 & H1 & H).
    rewrite (IH st1 H).
    apply scan_line_Ret in H1 as [[E ->]|(obj & E & H1)].
    + cbn [omap list_omap]. fold (omap (line_record json_loads) ls).
      by rewrite E.
    + rewrite (process_record_messages _ _ _ H1), <- app_assoc. f_equal.
      cbn [omap list_omap]. fold (omap (line_record json_loads) ls).
      rewrite E. cbn [omap list_omap].
      fold (omap record_message (omap (line_record json_loads) ls)).
      by destruct (record_message obj).
Qed.

(** X4: the messages of a conversation are, up to their [todos] keys, the
    Messages of the [message] records of the file, one for each record of
    role [user] or [assistant], in the order of the lines. *)
Theorem messages_follow_file_order (f : session_file) (c : conversation) :
  scan_file json_loads f = Ret (Some c) →
  map clear_todos (messages c) = file_messages json_loads (lines f).
Proof.
  intros H. apply scan_file_Ret in H as (st & H & Hc).
  apply scan_lines_messages in H. simpl in H.
  destruct (st_messages st) eqn:E; [discriminate|].
  injection Hc as ->. simpl. by rewrite E.
Qed.

End FileOrder.

(** ** Further properties of [todo_state] records *)

(** X5: a [message] record that gives a Message, followed by two
    [todo_state] records, leaves the list of messages with that Message
    at its end, carrying the [todos] value of the first of the two
    records (None when it has no such key); the second one is ignored. *)
Theorem first_todo_state_after_message_wins (st : scan_state)
  (d t1 t2 : gmap (list N) json) (msg : message) :
  eq_str (dict_get d "type" JNull) "message" = true →
  message_of_record (JDict d) = Ret (Some msg) →
  eq_str (dict_get t1 "type" JNull) "todo_state" = true →
  eq_str (dict_get t2 "type" JNull) "todo_state" = true →
  (st1 ← process_record st (JDict d);
   st2 ← process_record st1 (JDict t1);
   process_record st2 (JDict t2))
  = Ret {| st_messages :=
             st_messages st
             ++ [{| role := role msg;
                    content := content msg;
                    timestamp := timestamp msg;
                    thinking := thinking msg;
                    tool_uses := tool_uses msg;
                    tool_results := tool_results msg;
                    todos := Some (dict_get t1 "todos" JNull) |}];
           st_title := st_title st; st_owner := st_owner st |}.
Proof.
  intros Hd Hmsg Ht1 Ht2.
  rewrite (process_record_message st d Hd), Hmsg. simpl.
  rewrite (process_record_todo_state _ t1 Ht1). simpl.
  rewrite last_lacks_todos_snoc, (message_of_record_todos _ _ Hmsg). simpl.
  rewrite (process_record_todo_state _ t2 Ht2). simpl.
  by rewrite set_last_todos_snoc, last_lacks_todos_snoc.
Qed.

Lemma process_record_keeps_earlier (st st' : scan_state) (obj : json)
  (ms : list message) (m : message) :
  process_record st obj = Ret st' →
  st_messages st = ms ++ [m] →
  ∃ m' rest, st_messages st' = ms ++ m' :: rest.
Proof.
  intros H Hst.
  destruct (process_record_cases st st' obj H)
    as (d & -> & [[_ ->]|[[_ [[_ ->]|(msg & _ & ->)]]|[_ [->|(v & _ & ->)]]]]);
    rewrite Hst.
  - eauto.
  - eauto.
  - exists m, [msg]. by rewrite <- app_assoc.
  - eauto.
  - rewrite set_last_todos_snoc. eauto.
Qed.

Section Earlier.

Variable json_loads : str → res json.

(** X6: the scan changes no message but the last one: the messages that
    stand before the last message at some point of the scan stand
    unchanged, [todos] key included, at the head of the list after any
    further lines. *)
Theorem earlier_messages_are_frozen (st st' : scan_state) (ls : list str)
  (ms : list message) (m : message) :
  scan_lines json_loads st ls = Ret st' →
  st_messages st = ms ++ [m] →
  ms `prefix_of` st_messages st'.
Proof.
  revert st ms m. induction ls as [|line ls IH]; intros st ms m H Hst.
  - injection H as <-. rewrite Hst. by apply prefix_app_r.
  - simpl in H. apply bind_Ret in H as (st1 & H1 & H).
    apply scan_line_Ret in H1 as [[_ ->]|(obj & _ & H1)]; [by eapply IH|].
    destruct (process_record_keeps_earlier _ _ _ ms m H1 Hst)
      as (m' & rest & Hst1).
    destruct (decide (rest = [])) as [->|Hrest].
    + by eapply IH.
    + destruct (exists_last Hrest) as (rest' & m'' & ->).
      assert (Hp : (ms ++ m' :: rest') `prefix_of` st_messages st').
      { eapply (IH st1 _ m''); [done|].
        by rewrite Hst1, <- app_assoc. }
      etransitivity; [|exact Hp]. by apply prefix_app_r.
Qed.

End Earlier.

(** ** Lines that do not count, and lines that end the scan *)

Lemma process_record_ignored (st : scan_state) (obj : json) :
  ignored_record obj = true → process_record st obj = Ret st.
Proof.
  destruct obj; simpl; try discriminate.
  destruct (eq_str (dict_get d "type" JNull) "session_start") eqn:E1;
    [discriminate|].
  destruct (eq_str (dict_get d "type" JNull) "message") eqn:E2.
  - destruct (dict_get d "message" (JDict ∅)) as [| | | | | |m] eqn:Em;
      try discriminate.
    intros Hrole. apply negb_true_iff in Hrole.
    rewrite (process_record_message st d E2),
      (message_of_record_dict d m Em), Hrole. done.
  - destruct (eq_str (dict_get d "type" JNull) "todo_state") eqn:E3;
      [discriminate|].
    intros _. by apply process_record_other.
Qed.

Lemma strip_blank (s : str) : strip s = [] ↔ forallb isspace s = true.
Proof.
  unfold strip. split.
  - intros H. apply (f_equal (@rev N)) in H. rewrite rev_involutive in H.
    simpl in H.
    assert (Hl : ∀ t, lstrip t = [] ↔ forallb isspace t = true).
    { induction t as [|c t IH]; simpl; [done|].
      destruct (isspace c); simpl; [done|]. split; discriminate. }
    assert (Hs : ∀ t, ∃ k, t = k ++ lstrip t ∧ forallb isspace k = true).
    { induction t as [|c t IH]; simpl; [by exists []|].
      destruct (isspace c) eqn:Ec.
      - destruct IH as (k & Hk & Hsp). exists (c :: k). simpl.
        rewrite Ec, Hsp. split; [by f_equal|done].
      - by exists []. }
    apply Hl in H. destruct (Hs s) as (k & Hk & Hsp).
    rewrite Hk, forallb_app, Hsp. simpl.
    rewrite forallb_forall in H |- *. intros x Hx. apply H.
    by apply in_rev in Hx.
  - intros H.
    assert (Hl : ∀ t, forallb isspace t = true → lstrip t = []).
    { induction t as [|c t IH]; simpl; [done|].
      destruct (isspace c); simpl; [done|discriminate]. }
    by rewrite (Hl s H).
Qed.

Section Lines.

Variable json_loads : str → res json.

Lemma scan_line_ignorable (st : scan_state) (line : str) :
  ignorable_line json_loads line = true →
  scan_line json_loads st line = Ret st.
Proof.
  unfold ignorable_line, scan_line.
  destruct (strip line); [done|].
  destruct (json_loads line) as [obj|e]; [|discriminate].
  intros H. simpl. by rewrite (process_record_ignored st obj H).
Qed.

Lemma scan_lines_drop (keep : str → bool) (st : scan_state) (ls : list str) :
  (∀ line st', keep line = false → scan_line json_loads st' line = Ret st') →
  scan_lines json_loads st (List.filter keep ls)
  = scan_lines json_loads st ls.
Proof.
  intros Hkeep. revert st. induction ls as [|line ls IH]; intros st; [done|].
  simpl. destruct (keep line) eqn:E; simpl.
  - destruct (scan_line json_loads st line); simpl; [apply IH|done].
  - rewrite (Hkeep line st E). simpl. apply IH.
Qed.

(** X7: blank lines, records of a type other than [session_start],
    [message] and [todo_state], and [message] records whose role is
    neither [user] nor [assistant] (whatever their content) do not count:
    the file gives the same result, conversation, nothing or error, as
    the file without these lines. *)
Theorem ignorable_lines_do_not_count (f : session_file) :
  scan_file json_loads f
  = scan_file json_loads
      (with_lines f
         (List.filter (fun line => negb (ignorable_line json_loads line))
                      (lines f))).
Proof.
  symmetry. apply scan_file_with_lines, scan_lines_drop.
  intros line st' H. apply negb_false_iff in H.
  by apply scan_line_ignorable.
Qed.

Lemma scan_line_fatal (st : scan_state) (line : str) :
  fatal_line json_loads line = true →
  ∃ e, scan_line json_loads st line = Raise e.
Proof.
  unfold fatal_line, scan_line.
  destruct (strip line); [discriminate|].
  destruct (json_loads line) as [obj|e]; simpl.
  - destruct obj; simpl; try discriminate; eauto.
  - destruct e; try discriminate; eauto.
Qed.

Lemma scan_lines_fatal (st : scan_state) (ls : list str) :
  existsb (fatal_line json_loads) ls = true →
  ∃ e, scan_lines json_loads st ls = Raise e.
Proof.
  revert st. induction ls as [|line ls IH]; intros st; simpl; [discriminate|].
  intros H. apply orb_true_iff in H as [H|H].
  - destruct (scan_line_fatal st line H) as [e ->]. simpl. eauto.
  - destruct (scan_line json_loads st line) as [st1|e]; simpl; eauto.
Qed.

(** X8: a non-blank line on which [json.loads] raises an error other than
    JSONDecodeError, or returns a value that is not an object (null, a
    number, a string, a list), is not skipped: the scan of the file
    raises, wherever the line stands, and the file adds nothing to the
    output. *)
Theorem fatal_line_drops_the_file (fs1 fs2 : list session_file)
  (f : session_file) :
  existsb (fatal_line json_loads) (lines f) = true →
  (∃ e, scan_file json_loads f = Raise e) ∧
  extract_droid_sessions json_loads
    {| sessions_dir_exists := true; jsonl_files := fs1 ++ f :: fs2 |}
  = extract_droid_sessions json_loads
      {| sessions_dir_exists := true; jsonl_files := fs1 ++ fs2 |}.
Proof.
  intros H.
  destruct (scan_lines_fatal scan_start (lines f) H) as [e He].
  assert (Hf : scan_file json_loads f = Raise e).
  { unfold scan_file, read_session. by rewrite He. }
  split; [eauto|].
  rewrite !extract_contributions, !omap_app. simpl.
  unfold contribution at 2. by rewrite Hf.
Qed.

End Lines.

Lemma scan_lines_decoders (loads1 loads2 : str → res json)
  (st : scan_state) (ls : list str) :
  (∀ line, forallb isspace line = false → loads1 line = loads2 line) →
  scan_lines loads1 st ls = scan_lines loads2 st ls.
Proof.
  intros Hagree. revert st. induction ls as [|line ls IH]; intros st; [done|].
  simpl.
  assert (Hline : scan_line loads1 st line = scan_line loads2 st line).
  { unfold scan_line. destruct (strip line) eqn:E; [done|].
    rewrite Hagree; [done|].
    destruct (forallb isspace line) eqn:Eb; [|done].
    apply strip_blank in Eb. congruence. }
  rewrite Hline. destruct (scan_line loads2 st line); simpl; [apply IH|done].
Qed.

(** X9: a line made of whitespace only is never handed to [json.loads]:
    two decoders that agree on every line with a character that is not
    whitespace give the same extraction. *)
Theorem blank_lines_are_never_decoded (loads1 loads2 : str → res json)
  (env : environment) :
  (∀ line, forallb isspace line = false → loads1 line = loads2 line) →
  extract_droid_sessions loads1 env = extract_droid_sessions loads2 env.
Proof.
  intros Hagree. unfold extract_droid_sessions.
  destruct (find_droid_sessions env) as [fs|]; [|done].
  generalize (@nil conversation).
  induction fs as [|f fs IH]; intros acc; [done|]. simpl.
  assert (Hf : scan_file loads1 f = scan_file loads2 f).
  { unfold scan_file, read_session.
    by rewrite (scan_lines_decoders loads1 loads2 _ _ Hagree). }
  rewrite Hf. destruct (scan_file loads2 f) as [[c|]|e]; apply IH.
Qed.

(** ** Invariants of the output *)

Lemma message_of_record_role (obj : json) (msg : message) :
  message_of_record obj = Ret (Some msg) → role_user_or_assistant msg.
Proof.
  intros H. destruct (message_of_record_Ret _ _ H) as (d & m & -> & E).
  destruct (message_of_record_Some d m msg E H) as (Hrole & texts & _ & ->).
  unfold role_user_or_assistant. simpl.
  apply orb_true_iff in Hrole as [Hr|Hr]; apply eq_str_true in Hr; eauto.
Qed.

Section OutputInvariants.

Variable json_loads : str → res json.

(** A property of messages that every Message of a record has and that
    setting [todos] keeps holds of every message of the scan. *)
Lemma scan_lines_Forall (P : message → Prop) (st st' : scan_state)
  (ls : list str) :
  (∀ obj msg, message_of_record obj = Ret (Some msg) → P msg) →
  (∀ m v, P m → P (set_todos m v)) →
  scan_lines json_loads st ls = Ret st' →
  Forall P (st_messages st) → Forall P (st_messages st').
Proof.
  intros Hnew Hset. revert st. induction ls as [|line ls IH]; intros st.
  - by intros [= <-].
  - intros H Hst. simpl in H. apply bind_Ret in H as (st1 & H1 & H).
    apply (IH st1 H).
    apply scan_line_Ret in H1 as [[_ ->]|(obj & _ & H1)]; [done|].
    destruct (process_record_cases st st1 obj H1)
      as (d & -> & [[_ ->]|[[_ [[_ ->]|(msg & Hr & ->)]]|[_ [->|(v & _ & ->)]]]]);
      try done.
    + apply Forall_app. split; [done|]. apply Forall_singleton. eauto.
    + unfold set_last_todos. apply Forall_alter; [done|]. intros m _. apply Hset.
Qed.

Lemma contribution_Some (f : session_file) (c : conversation) :
  contribution json_loads f = Some c →
  ∃ st, scan_lines json_loads scan_start (lines f) = Ret st ∧
        st_messages st ≠ [] ∧ c = make_conversation f st.
Proof.
  unfold contribution.
  destruct (scan_file json_loads f) as [[c'|]|e] eqn:E; try discriminate.
  intros [= <-]. apply scan_file_Ret in E as (st & H & Hc).
  exists st. destruct (st_messages st) eqn:Em; [discriminate|].
  injection Hc as ->. done.
Qed.

Lemma extract_Forall (P : conversation → Prop) (env : environment) :
  (∀ f c, f ∈ jsonl_files env → contribution json_loads f = Some c → P c) →
  Forall P (extract_droid_sessions json_loads env).
Proof.
  unfold extract_droid_sessions, find_droid_sessions.
  destruct (sessions_dir_exists env); [|intros _; by apply Forall_nil].
  rewrite for_jsonl_files_contributions. simpl.
  induction (jsonl_files env) as [|f fs IH]; intros HP; simpl;
    [by apply Forall_nil|].
  assert (IH' : Forall P (omap (contribution json_loads) fs)).
  { apply IH. intros g c Hg. apply HP. by right. }
  destruct (contribution json_loads f) as [c|] eqn:E; [|done].
  apply Forall_cons. split; [|done]. apply (HP f); [by left|done].
Qed.

Lemma output_conversations_well_formed_aux (env : environment) :
  Forall (fun c =>
            messages c ≠ [] ∧ source c = py "droid" ∧
            (∃ f, f ∈ jsonl_files env ∧
                  session_id c = stem f ∧ source_file c = path f) ∧
            Forall role_user_or_assistant (messages c))
         (extract_droid_sessions json_loads env).
Proof.
  apply extract_Forall. intros f c Hf Hc.
  apply contribution_Some in Hc as (st & Hst & Hne & ->). simpl.
  repeat split; [done|eauto|].
  eapply (scan_lines_Forall role_user_or_assistant);
    [| |exact Hst|by apply Forall_nil].
  - apply message_of_record_role.
  - by intros m v Hm.
Qed.

(** X10: every conversation of the output has at least one message, the
    source tag [droid], and the stem and the path of one of the files of
    the directory as its [session_id] and [source_file]; and every message
    of it has the role [user] or [assistant]. *)
Theorem output_conversations_are_well_formed (env : environment)
  (c : conversation) :
  c ∈ extract_droid_sessions json_loads env →
  messages c ≠ [] ∧ source c = py "droid" ∧
  (∃ f, f ∈ jsonl_files env ∧
        session_id c = stem f ∧ source_file c = path f) ∧
  (∀ m, m ∈ messages c → role m = JStr "user" ∨ role m = JStr "assistant").
Proof.
  intros Hc.
  pose proof (output_conversations_well_formed_aux env) as H.
  rewrite Forall_forall in H. destruct (H c Hc) as (H1 & H2 & H3 & H4).
  repeat split; [done..|].
  intros m Hm. rewrite Forall_forall in H4. by apply H4.
Qed.

(** X11: the conversations come out in the order in which the directory
    lists the files, at most one for a file: their pairs of [session_id]
    and [source_file] are a sublist of the pairs of stem and path of the
    files. *)
Theorem output_follows_file_order (env : environment) :
  map (fun c => (session_id c, source_file c))
      (extract_droid_sessions json_loads env)
  `sublist_of` map (fun f => (stem f, path f)) (jsonl_files env).
Proof.
  unfold extract_droid_sessions, find_droid_sessions.
  destruct (sessions_dir_exists env); [|apply sublist_nil_l].
  rewrite for_jsonl_files_contributions. simpl.
  induction (jsonl_files env) as [|f fs IH]; simpl; [done|].
  destruct (contribution json_loads f) as [c|] eqn:E; simpl.
  - apply contribution_Some in E as (st & _ & _ & ->). simpl.
    by apply sublist_skip.
  - by apply sublist_cons.
Qed.

End OutputInvariants.

(** ** The counters on the output *)

Lemma sum_map_lengths (cs : list conversation) :
  sum (map (fun c => length (messages c)) cs) = length (all_messages cs).
Proof.
  unfold all_messages. induction cs as [|c cs IH]; [done|].
  change (length (messages c) + sum (map (fun c => length (messages c)) cs)
          = length (messages c ++ concat (map messages cs))).
  by rewrite IH, length_app.
Qed.

Lemma count_if_le {A : Type} (p : A → bool) (l : list A) :
  count_if p l ≤ length l.
Proof. unfold count_if. apply List.filter_length_le. Qed.

Lemma count_if_partition {A : Type} (p q : A → bool) (l : list A) :
  Forall (fun x => p x = negb (q x)) l →
  count_if p l + count_if q l = length l.
Proof.
  unfold count_if. induction 1 as [|x l Hx _ IH]; simpl; [done|].
  rewrite Hx. destruct (q x); simpl; lia.
Qed.

Lemma role_user_xor_assistant (m : message) :
  role_user_or_assistant m →
  eq_str (role m) "user" = negb (eq_str (role m) "assistant").
Proof. by intros [-> | ->]. Qed.

Lemma all_messages_Forall (P : message → Prop) (cs : list conversation) :
  Forall (fun c => Forall P (messages c)) cs → Forall P (all_messages cs).
Proof.
  unfold all_messages. induction 1 as [|c cs Hc _ IH]; simpl;
    [by apply Forall_nil|].
  apply Forall_app. by split.
Qed.

Lemma length_le_all_messages (cs : list conversation) :
  Forall (fun c => messages c ≠ []) cs → length cs ≤ length (all_messages cs).
Proof.
  unfold all_messages. induction 1 as [|c cs Hc _ IH]; simpl; [done|].
  rewrite length_app. destruct (messages c); [done|]. simpl. lia.
Qed.

Section OutputCounters.

Variable json_loads : str → res json.

(** X12: on the output of the extraction every message is counted once as
    a user message or as an assistant message: the total that [main]
    prints is the sum of the two. *)
Theorem user_and_assistant_add_up (env : environment) :
  let s := main_statistics (extract_droid_sessions json_loads env) in
  total_messages s = user_messages s + assistant_messages s.
Proof.
  simpl. rewrite sum_lengths, !sum_messages, sum_map_lengths.
  symmetry. apply count_if_partition.
  eapply Forall_impl; [|apply role_user_xor_assistant].
  apply all_messages_Forall.
  eapply Forall_impl; [apply output_conversations_well_formed_aux|].
  by intros c (_ & _ & _ & ?).
Qed.

End OutputCounters.

Section OutputBounds.

Variable json_loads : str → res json.

(** X13: on the output of the extraction the counters of [main] are
    bounded by one another: there are at least as many messages as
    conversations, and neither the conversations with tools nor those
    with thinking outnumber the conversations. *)
Theorem counters_are_bounded (env : environment) :
  let cs := extract_droid_sessions json_loads env in
  let s := main_statistics cs in
  length cs ≤ total_messages s ∧
  with_tools s ≤ length cs ∧
  with_thinking s ≤ length cs.
Proof.
  simpl. rewrite sum_lengths, sum_map_lengths, !sum_ones.
  split; [|split; apply count_if_le].
  apply length_le_all_messages.
  eapply Forall_impl; [apply output_conversations_well_formed_aux|].
  by intros c (? & _).
Qed.

Lemma contribution_is_Some (f : session_file) :
  is_Some (contribution json_loads f)
  ↔ well_formed_file json_loads f = true ∧
    0 < qualifying_count json_loads (lines f).
Proof.
  rewrite <- scan_file_well_formed. unfold contribution. split.
  - destruct (scan_file json_loads f) as [[c|]|e] eqn:E;
      intros [c' [= <-]].
    split; [eauto|]. by apply scan_file_count in E as (? & _).
  - intros [[r Hr] Hq]. rewrite Hr.
    pose proof (scan_file_count json_loads f r Hr) as Hc.
    destruct r as [c|]; [eauto|lia].
Qed.

Lemma omap_nil_iff {A B : Type} (g : A → option B) (l : list A) :
  omap g l = [] ↔ ∀ x, x ∈ l → g x = None.
Proof.
  induction l as [|x l IH]; simpl.
  - split; [|done]. intros _ y Hy. by apply elem_of_nil in Hy.
  - destruct (g x) eqn:E.
    + split; [discriminate|]. intros H.
      rewrite (H x) in E; [discriminate|by left].
    + rewrite IH. split.
      * intros H y Hy. apply elem_of_cons in Hy as [->|Hy]; eauto.
      * intros H y Hy. apply H. by right.
Qed.

End OutputBounds.

(** ** The end of [main] *)

Lemma split_lines_line (l rest cur : str) :
  10%N ∉ l →
  split_lines (l ++ newline ++ rest) cur = (cur ++ l) :: split_lines rest [].
Proof.
  revert cur. induction l as [|c l IH]; intros cur Hl; simpl.
  - by rewrite app_nil_r.
  - apply not_elem_of_cons in Hl as [Hc Hl].
    destruct (N.eqb_spec c 10) as [->|_]; [done|].
    by rewrite (IH _ Hl), <- app_assoc.
Qed.

Lemma split_lines_written (ss : list str) :
  Forall (fun s => 10%N ∉ s) ss →
  split_lines (concat (map (fun s => s ++ newline) ss)) [] = ss.
Proof.
  induction 1 as [|s ss Hs _ IH]; simpl; [done|].
  rewrite <- app_assoc, (split_lines_line _ _ [] Hs). simpl. by rewrite IH.
Qed.

Section MainEnd.

Variable json_loads : str → res json.
Variable json_dumps : conversation → res str.
Variable io : output_io.

(** The loop that ends without an error has written the serialised
    conversations, each followed by a newline, after the text it started
    from. *)
Lemma write_conversations_done (cs : list conversation) (text text' : str) :
  write_conversations json_dumps io cs text = (text', None) →
  ∃ ss, Forall2 (fun c s => json_dumps c = Ret s) cs ss ∧
        text' = text ++ concat (map (fun s => s ++ newline) ss).
Proof.
  revert text. induction cs as [|c cs IH]; intros text; simpl.
  - intros [= <-]. exists []. split; [by apply Forall2_nil|].
    by rewrite app_nil_r.
  - destruct (json_dumps c) as [s|e] eqn:Es; [|discriminate].
    destruct (write_error io text (s ++ newline)); [discriminate|].
    intros H. apply IH in H as (ss & Hss & ->).
    exists (s :: ss). split; [by apply Forall2_cons|].
    simpl. by rewrite <- !app_assoc.
Qed.

Lemma main_early (env : environment) (timestamp0 : str) :
  match extract_droid_sessions json_loads env with
  | [] =>
      main json_loads json_dumps io env timestamp0
      = if sessions_dir_exists env then NoSessionsFound
        else NoSessionsDirectory
  | _ :: _ =>
      sessions_dir_exists env = true ∧
      ∃ r, found r = length (extract_droid_sessions json_loads env) ∧
           ((main json_loads json_dumps io env timestamp0 = Saved r) ∨
            (∃ e created,
               main json_loads json_dumps io env timestamp0
               = Raised e r created))
  end.
Proof.
  unfold main, extract_droid_sessions, find_droid_sessions.
  destruct (sessions_dir_exists env); [|done].
  destruct (for_jsonl_files json_loads [] (jsonl_files env)) as [|c cs];
    [done|].
  split; [done|].
  destruct (mkdir_error io); [eexists; split; [|right; eauto]; done|].
  destruct (open_error io); [eexists; split; [|right; eauto]; done|].
  destruct (write_conversations _ _ _ _) as [text [e|]];
    [eexists; split; [|right; eauto]; done|].
  destruct (close_error io text); [eexists; split; [|right; eauto]; done|].
  destruct (stat_error io); [eexists; split; [|right; eauto]; done|].
  eexists. split; [|left; done]. done.
Qed.

Lemma extract_nil_iff (env : environment) :
  sessions_dir_exists env = true →
  extract_droid_sessions json_loads env = []
  ↔ ∀ f, f ∈ jsonl_files env →
         ¬ (well_formed_file json_loads f = true ∧
            0 < qualifying_count json_loads (lines f)).
Proof.
  intros Hdir. unfold extract_droid_sessions, find_droid_sessions.
  rewrite Hdir, for_jsonl_files_contributions. simpl.
  rewrite omap_nil_iff. split; intros H f Hf.
  - rewrite <- contribution_is_Some, (H f Hf). by intros [c [=]].
  - specialize (H f Hf). rewrite <- contribution_is_Some in H.
    destruct (contribution json_loads f); [|done]. destruct H. eauto.
Qed.

(** X14: [main] ends at its first early return exactly when the sessions
    directory is missing, and at its second exactly when the directory
    exists and holds no file whose scan raises no error and which has a
    [message] record of role [user] or [assistant]. With such a file it
    goes on to the counters and to the output file, having found at least
    one session, and ends there, saved or with the error raised. *)
Theorem main_returns_early_iff (env : environment) (timestamp0 : str) :
  let good f := well_formed_file json_loads f = true ∧
                0 < qualifying_count json_loads (lines f) in
  (main json_loads json_dumps io env timestamp0 = NoSessionsDirectory
   ↔ sessions_dir_exists env = false) ∧
  (main json_loads json_dumps io env timestamp0 = NoSessionsFound
   ↔ sessions_dir_exists env = true ∧
     ∀ f, f ∈ jsonl_files env → ¬ good f) ∧
  (sessions_dir_exists env = true ∧ (∃ f, f ∈ jsonl_files env ∧ good f)
   ↔ ∃ r, 0 < found r ∧
          (main json_loads json_dumps io env timestamp0 = Saved r ∨
           ∃ e created,
             main json_loads json_dumps io env timestamp0
             = Raised e r created)).
Proof.
  intros good. subst good.
  pose proof (main_early env timestamp0) as Hmain.
  destruct (sessions_dir_exists env) eqn:Hdir.
  - pose proof (extract_nil_iff env Hdir) as Hnil.
    destruct (extract_droid_sessions json_loads env) as [|c cs] eqn:E.
    + rewrite Hmain. destruct Hnil as [Hnil _]. specialize (Hnil eq_refl).
      split; [split; discriminate|]. split; [split; [eauto|done]|].
      split.
      * intros (_ & f & Hf & Hgood). by destruct (Hnil f Hf).
      * intros (r & _ & [[=]|(e & b & [=])]).
    + destruct Hmain as (_ & r & Hfound & Hr).
      assert (Hgood : ∃ f, f ∈ jsonl_files env ∧
                well_formed_file json_loads f = true ∧
                0 < qualifying_count json_loads (lines f)).
      { assert (Hc : c ∈ extract_droid_sessions json_loads env)
          by (rewrite E; by left).
        unfold extract_droid_sessions, find_droid_sessions in Hc.
        rewrite Hdir, for_jsonl_files_contributions in Hc. simpl in Hc.
        apply list_elem_of_omap in Hc as (f & Hf & Hc).
        exists f. split; [done|]. apply contribution_is_Some. eauto. }
      split; [|split].
      * split; [|discriminate].
        destruct Hr as [->|(e & b & ->)]; discriminate.
      * split.
        -- destruct Hr as [->|(e & b & ->)]; discriminate.
        -- intros (_ & Hnone). destruct Hgood as (f & Hf & Hgood).
           by destruct (Hnone f Hf).
      * split; [intros _|by intros _].
        exists r. split; [rewrite Hfound; simpl; lia|done].
  - assert (E : extract_droid_sessions json_loads env = []).
    { unfold extract_droid_sessions, find_droid_sessions. by rewrite Hdir. }
    rewrite E in Hmain. rewrite Hmain.
    split; [done|]. split; [split; [discriminate|by intros [[=] _]]|].
    split; [by intros [[=] _]|].
    intros (r & _ & [[=]|(e & b & [=])]).
Qed.

(** X15: when [main] runs to its end, and no serialised conversation
    holds a raw newline, every conversation of the output was serialised
    and the text written reads back as one line for each of them, in
    order, each line being the serialised conversation; the number of
    sessions reported as found is the number of these lines, and the
    counters printed are those of that output. *)
Theorem written_file_has_one_line_per_conversation (env : environment)
  (timestamp0 : str) (r : saved) :
  main json_loads json_dumps io env timestamp0 = Saved r →
  (∀ c s, c ∈ extract_droid_sessions json_loads env →
          json_dumps c = Ret s → 10%N ∉ s) →
  Forall2 (fun c s => json_dumps c = Ret s)
          (extract_droid_sessions json_loads env)
          (split_lines (output_text r) []) ∧
  found r = length (split_lines (output_text r) []) ∧
  printed r = main_statistics (extract_droid_sessions json_loads env).
Proof.
  unfold main. intros H Hnl.
  destruct (find_droid_sessions env); [|discriminate].
  destruct (extract_droid_sessions json_loads env) as [|c cs] eqn:E;
    [discriminate|].
  destruct (mkdir_error io); [discriminate|].
  destruct (open_error io); [discriminate|].
  destruct (write_conversations _ _ _ _) as [text [e|]] eqn:Hw;
    [discriminate|].
  destruct (close_error io text); [discriminate|].
  destruct (stat_error io); [discriminate|].
  injection H as <-. simpl output_text. simpl found. simpl printed.
  apply write_conversations_done in Hw as (ss & Hss & ->).
  change ([] ++ ?t) with t.
  assert (Hs : Forall (fun s => 10%N ∉ s) ss).
  { apply Forall_forall. intros s Hs.
    apply list_elem_of_lookup in Hs as [i Hi].
    destruct (Forall2_lookup_r _ _ _ _ _ Hss Hi) as (c' & Hc' & Hd).
    apply (Hnl c'); [|done]. by eapply list_elem_of_lookup_2. }
  rewrite (split_lines_written ss Hs).
  split; [done|]. split; [|done].
  exact (Forall2_length _ _ _ Hss).
Qed.

End MainEnd.

(** ** The further properties on sample data *)

Lemma tool_entries_follow_blocks_witness :
  ∃ msg,
    message_of_record
      (Sample.message_record "assistant" (JList Sample2.tool_parts))
    = Ret (Some msg) ∧
    tool_uses msg
    = Some [ {| tu_id := JStr "t1"; tu_name := JStr "Read";
                tu_input := jobj [] |};
             {| tu_id := JStr "t2"; tu_name := JStr "Edit";
                tu_input := jobj [] |} ] ∧
    tool_results msg
    = Some [ {| tr_tool_use_id := JStr "t1"; tr_content := JStr "ok" |} ].
Proof.
  eexists. split; [vm_compute; reflexivity|].
  exact (tool_entries_follow_blocks
           (jmap (Sample.record_fields "assistant"
                    (JList Sample2.tool_parts)))
           (jmap (Sample.message_fields "assistant"
                    (JList Sample2.tool_parts)))
           _ eq_refl eq_refl).
Defined.

Lemma unknown_blocks_have_no_effect_witness :
  message_of_record
    (Sample.message_record "user" (JList [Sample.text_block "a"]))
  = message_of_record
      (Sample.message_record "user" (JList Sample2.mixed_parts)).
Proof.
  exact (unknown_blocks_have_no_effect
           (jmap (Sample.record_fields "user" (JList Sample2.mixed_parts)))
           (jmap (Sample.message_fields "user" (JList Sample2.mixed_parts)))
           Sample2.mixed_parts eq_refl eq_refl).
Defined.

Lemma falsy_content_gives_bare_message_witness :
  message_of_record (Sample.message_record "user" JNull)
  = Ret (Some {| role := JStr "user"; content := []; timestamp := JNull;
                 thinking := None; tool_uses := None; tool_results := None;
                 todos := None |}).
Proof.
  exact (falsy_content_gives_bare_message
           (jmap (Sample.record_fields "user" JNull))
           (jmap (Sample.message_fields "user" JNull))
           eq_refl eq_refl eq_refl).
Defined.

Lemma messages_follow_file_order_witness :
  ∃ c,
    scan_file Sample.loads
      (Sample.file "s1" [Sample.start_A; Sample.user_hi; Sample.todo_1;
                         Sample.system_note; Sample.assistant_a_b])
    = Ret (Some c) ∧
    map (fun m => (role m, content m)) (map clear_todos (messages c))
    = [(JStr "user", py "hi");
       (JStr "assistant", py "a" ++ newline ++ py "b")].
Proof.
  destruct (scan_file Sample.loads
              (Sample.file "s1" [Sample.start_A; Sample.user_hi;
                                 Sample.todo_1; Sample.system_note;
                                 Sample.assistant_a_b]))
    as [[c|]|e] eqn:E; try (vm_compute in E; discriminate).
  exists c. split; [reflexivity|].
  rewrite (messages_follow_file_order Sample.loads _ c E).
  vm_compute. reflexivity.
Defined.

Lemma first_todo_state_after_message_wins_witness :
  (st1 ← process_record scan_start
           (Sample.message_record "user" (JList [Sample.text_block "hi"]));
   st2 ← process_record st1 (jobj (Sample2.todo_fields "t1"));
   process_record st2 (jobj (Sample2.todo_fields "t2")))
  = Ret {| st_messages :=
             [{| role := JStr "user"; content := py "hi"; timestamp := JNull;
                 thinking := None; tool_uses := None; tool_results := None;
                 todos := Some (JStr "t1") |}];
           st_title := JNull; st_owner := JNull |}.
Proof.
  exact (first_todo_state_after_message_wins scan_start
           (jmap (Sample.record_fields "user" (JList [Sample.text_block "hi"])))
           (jmap (Sample2.todo_fields "t1")) (jmap (Sample2.todo_fields "t2"))
           Sample.hi_message eq_refl eq_refl eq_refl eq_refl).
Defined.

Lemma earlier_messages_are_frozen_witness :
  ∃ st',
    scan_lines Sample.loads
      {| st_messages := [Sample.hi_message; Sample.hi_message];
         st_title := JNull; st_owner := JNull |}
      (map jline [Sample.todo_1; Sample.assistant_a_b; Sample.todo_2])
    = Ret st' ∧
    [Sample.hi_message] `prefix_of` st_messages st'.
Proof.
  eexists. split; [vm_compute; reflexivity|].
  exact (earlier_messages_are_frozen Sample.loads
           {| st_messages := [Sample.hi_message; Sample.hi_message];
              st_title := JNull; st_owner := JNull |}
           _ (map jline [Sample.todo_1; Sample.assistant_a_b; Sample.todo_2])
           [Sample.hi_message] Sample.hi_message eq_refl eq_refl).
Defined.

Lemma fatal_line_drops_the_file_witness :
  extract_droid_sessions Sample2.loads
    (Sample.sessions
       [Sample.file "s1" [Sample.user_hi];
        {| stem := "s2"; path := "s2.jsonl";
           lines := [jline Sample.user_hi; jline "42"];
           read_error := None |}])
  = extract_droid_sessions Sample2.loads
      (Sample.sessions [Sample.file "s1" [Sample.user_hi]]).
Proof.
  exact (proj2
    (fatal_line_drops_the_file Sample2.loads
       [Sample.file "s1" [Sample.user_hi]] []
       {| stem := "s2"; path := "s2.jsonl";
          lines := [jline Sample.user_hi; jline "42"];
          read_error := None |}
       eq_refl)).
Defined.

Lemma blank_lines_are_never_decoded_witness :
  extract_droid_sessions Sample.loads Sample2.two_sessions
  = extract_droid_sessions Sample2.loads_strict Sample2.two_sessions.
Proof.
  apply (blank_lines_are_never_decoded Sample.loads Sample2.loads_strict).
  intros line Hline. unfold Sample2.loads_strict. rewrite Hline. reflexivity.
Defined.

Lemma output_conversations_are_well_formed_witness :
  Forall (fun c => messages c ≠ [] ∧ source c = py "droid")
         (extract_droid_sessions Sample.loads Sample2.two_sessions).
Proof.
  apply Forall_forall. intros c Hc.
  destruct (output_conversations_are_well_formed Sample.loads
              Sample2.two_sessions c Hc) as (H1 & H2 & _).
  split; [exact H1 | exact H2].
Defined.

Lemma written_file_has_one_line_per_conversation_witness :
  ∃ r,
    main Sample.loads Sample2.dumps Sample2.io_ok Sample2.two_sessions
      "20260101_120000"
    = Saved r ∧
    split_lines (output_text r) [] = [py "{s1}"; py "{s3}"] ∧
    found r = 2.
Proof.
  destruct (main Sample.loads Sample2.dumps Sample2.io_ok
              Sample2.two_sessions "20260101_120000")
    as [| |r|e r b] eqn:E; try (vm_compute in E; discriminate).
  exists r. split; [reflexivity|].
  destruct (written_file_has_one_line_per_conversation
              Sample.loads Sample2.dumps Sample2.io_ok Sample2.two_sessions
              "20260101_120000" r E) as (Hlines & Hfound & _).
  - intros c s Hc [= <-]. vm_compute in Hc.
    repeat (apply elem_of_cons in Hc as [->|Hc];
            [apply (bool_decide_unpack _); vm_compute; exact I|]).
    by apply elem_of_nil in Hc.
  - vm_compute in E. injection E as <-. split; reflexivity.
Defined.

Example sample_main_counters :
  match main Sample.loads Sample2.dumps Sample2.io_ok Sample2.two_sessions
          "t" with
  | Saved r =>
      (found r, total_messages (printed r), user_messages (printed r),
       assistant_messages (printed r))
  | _ => (0, 0, 0, 0)
  end = (2, 3, 2, 1).
Proof. vm_compute. reflexivity. Qed.

Example sample_main_write_fails :
  match main Sample.loads Sample2.dumps Sample2.io_bad_s3
          Sample2.two_sessions "t" with
  | Raised e r created => Some (e, found r, output_text r, created)
  | _ => None
  end = Some (UnicodeEncodeError, 2, py "{s1}" ++ newline, true).
Proof. vm_compute. reflexivity. Qed.
